(** * Speech-to-text relay and capture client

    A shallow embedding of [server.js] (the transcription relay) and of
    [public/script.js] (the capture/upload client), with the properties
    of the specification stated and settled against them.

    Layout:
    - [JS]     : the fragment of JavaScript data and operators both
                 programs use (values, truthiness, property access,
                 optional chaining, a state-and-exception monad);
    - [Relay]  : [server.js];
    - [Client] : [public/script.js]. *)

From Stdlib Require Import ZArith QArith_base String Ascii List Bool Lia.
From stdpp Require Import base option gmap strings list.

Set Warnings "-register-all".

Local Open Scope string_scope.
Local Open Scope Z_scope.

(* ===================================================================== *)
(** * JavaScript data and control *)
(* ===================================================================== *)
Module JS.

(** JSON-like data, plus [undefined] (what a missing property reads as).
    Objects keep their fields as an association list, in insertion
    order; a read takes the first binding of a key. *)
Inductive value : Type :=
| VUndefined
| VNull
| VBool (b : bool)
| VNum (q : Q)
| VStr (s : string)
| VArr (items : list value)
| VObj (fields : list (string * value)).

Definition num (z : Z) : value := VNum (Qmake z 1).

(** [!!v] of JavaScript: [undefined], [null], [false], [0] and [''] are
    falsy, everything else is truthy. *)
Definition truthy (v : value) : bool :=
  match v with
  | VUndefined | VNull => false
  | VBool b => b
  | VNum q => negb (Qnum q =? 0)
  | VStr s => negb (String.eqb s "")
  | VArr _ | VObj _ => true
  end.

(** [a || b] *)
Definition or (a b : value) : value := if truthy a then a else b.

Definition nullish (v : value) : bool :=
  match v with
  | VUndefined | VNull => true
  | _ => false
  end.

Fixpoint assoc (k : string) (fields : list (string * value)) : value :=
  match fields with
  | [] => VUndefined
  | (k', v) :: rest => if String.eqb k k' then v else assoc k rest
  end.

(** [v.k] for a named (non-index) key on a value that is not nullish.
    Arrays and strings own [length]; no other data property of the names
    read by the two programs lives on a primitive or on an array. *)
Definition get (v : value) (k : string) : value :=
  match v with
  | VObj fields => assoc k fields
  | VArr items => if String.eqb k "length" then num (Z.of_nat (List.length items)) else VUndefined
  | VStr s => if String.eqb k "length" then num (Z.of_nat (String.length s)) else VUndefined
  | _ => VUndefined
  end.

(** [v[0]] on a value that is not nullish. *)
Definition get0 (v : value) : value :=
  match v with
  | VObj fields => assoc "0" fields
  | VArr items => match items with [] => VUndefined | x :: _ => x end
  | VStr s => match s with EmptyString => VUndefined | String c _ => VStr (String c EmptyString) end
  | _ => VUndefined
  end.

(** [v?.k] and [v?.[0]] *)
Definition opt_get (v : value) (k : string) : value :=
  if nullish v then VUndefined else get v k.

Definition opt_get0 (v : value) : value :=
  if nullish v then VUndefined else get0 v.

(** Error objects, as far as the programs look at them: a [message]. *)
Definition Error (message : value) : value :=
  VObj [("message", message)].

Definition TypeError (message : string) : value :=
  VObj [("name", VStr "TypeError"); ("message", VStr message)].

(** ** Completions and the state-and-exception monad *)

Inductive completion (A : Type) : Type :=
| Normal (a : A)
| Throw (e : value).
Arguments Normal {A} a.
Arguments Throw {A} e.

Definition M (S A : Type) : Type := S -> S * completion A.

Definition ret {S A} (a : A) : M S A := fun s => (s, Normal a).

Definition bind {S A B} (m : M S A) (k : A -> M S B) : M S B :=
  fun s =>
    match m s with
    | (s', Normal a) => k a s'
    | (s', Throw e) => (s', Throw e)
    end.

Definition throw {S A} (e : value) : M S A := fun s => (s, Throw e).

Definition modify {S} (f : S -> S) : M S unit := fun s => (f s, Normal tt).

Definition lift {S A} (c : completion A) : M S A := fun s => (s, c).

(** [try { body } catch (e) { handler e }] *)
Definition try_catch {S A} (body : M S A) (handler : value -> M S A) : M S A :=
  fun s =>
    match body s with
    | (s', Normal a) => (s', Normal a)
    | (s', Throw e) => handler e s'
    end.

(** [try { body } finally { fin }] where [fin] completes normally. *)
Definition try_finally {S A} (body : M S A) (fin : S -> S) : M S A :=
  fun s => let '(s', c) := body s in (fin s', c).

(** [v.k] where reading a property of [undefined] or [null] throws. *)
Definition get_strict (v : value) (k : string) : completion value :=
  if nullish v
  then Throw (TypeError ("Cannot read properties of undefined (reading '" ++ k ++ "')"))
  else Normal (get v k).

(** [v.slice(0, n)]: defined on arrays and strings; on any other data
    value [slice] is not a function. *)
Definition slice0 (v : value) (n : nat) : completion value :=
  match v with
  | VArr items => Normal (VArr (take n items))
  | VStr s => Normal (VStr (String.substring 0 n s))
  | _ => Throw (TypeError "words.slice is not a function")
  end.

(** The [length] of what [slice] returns: entries of an array, code
    units of a string. *)
Definition size (v : value) : nat :=
  match v with
  | VArr items => List.length items
  | VStr s => String.length s
  | _ => 0%nat
  end.

(** [s.startsWith(p)], [s.endsWith(p)], [s.toLowerCase()] on byte
    strings: only A-Z are lowered. *)
Definition startsWith (s p : string) : bool := String.prefix p s.

Definition endsWith (s p : string) : bool :=
  let n := String.length s in
  let m := String.length p in
  (m <=? n)%nat && String.eqb (String.substring (n - m) m s) p.

Definition lower (c : ascii) : ascii :=
  let n := nat_of_ascii c in
  if ((65 <=? n) && (n <=? 90))%nat then ascii_of_nat (n + 32) else c.

Fixpoint toLowerCase (s : string) : string :=
  match s with
  | EmptyString => EmptyString
  | String c rest => String (lower c) (toLowerCase rest)
  end.

End JS.

Declare Scope js_scope.
Delimit Scope js_scope with js.
Notation "'let*' x ':=' m 'in' k" := (JS.bind m (fun x => k))
  (at level 10, x name, m at level 100, k at level 200) : js_scope.
Notation "'do' m 'then' k" := (JS.bind m (fun _ => k))
  (at level 10, m at level 100, k at level 200) : js_scope.

Local Open Scope js_scope.

(* ===================================================================== *)
(** * The transcription relay ([server.js]) *)
(* ===================================================================== *)
Module Relay.
Import JS.

(** ** Data *)

(** Audio bytes are kept abstract: an identity and a byte count. *)
Record blob : Type := { blob_id : string; blob_size : Z }.

(** The file part of the multipart body, field [audio], as the client
    declares it. *)
Record upload_part : Type := {
  part_originalname : string;
  part_mimetype : string;
  part_data : blob
}.

(** [req.file] once multer has stored the part. *)
Record file : Type := {
  originalname : string;
  mimetype : string;
  filename : string;
  path : string;
  size : Z
}.

Record response : Type := { status : Z; body : value }.

Inductive event : Type :=
| EvProvider (audio : blob) (options : value)
| EvUnlink (p : string)
| EvUnlinkFailed (p : string)
| EvRespond (r : response).

(** What one request can touch: temporary storage, the ordered effects
    and the response sent so far. *)
Record world : Type := {
  storage : gmap string blob;
  trace : list event;
  sent : option response
}.

(** A multer error ([instanceof multer.MulterError], with its [code]) or
    a plain [Error]. *)
Record upload_error : Type := {
  is_MulterError : bool;
  code : string;
  message : string
}.

(** How the awaited provider call ends: it resolves to
    [{ result, error }] or it rejects. *)
Inductive provider_outcome : Type :=
| Resolves (result error : value)
| Rejects (reason : value).

(** What the platform supplies to one request. *)
Record env : Type := {
  uniqueSuffix : string;            (* Date.now() + '-' + Math.round(Math.random() * 1E9) *)
  extname : string -> string;       (* path.extname *)
  now : string;                     (* new Date().toISOString() *)
  transcribeFile : blob -> value -> provider_outcome
}.

(** ** Effects *)

Definition emit (e : event) : M world unit :=
  modify (fun w => {| storage := storage w; trace := trace w ++ [e]; sent := sent w |}).

(** [res.status(code).json(body)] *)
Definition res_json (code : Z) (b : value) : M world unit :=
  let r := {| status := code; body := b |} in
  modify (fun w => {| storage := storage w; trace := trace w ++ [EvRespond r]; sent := Some r |}).

(** [fs.readFileSync(p)] *)
Definition readFileSync (p : string) : M world blob :=
  fun w =>
    match storage w !! p with
    | Some b => (w, Normal b)
    | None => (w, Throw (Error (VStr ("ENOENT: no such file or directory, open '" ++ p ++ "'"))))
    end.

(** [fs.existsSync(p)] *)
Definition existsSync (p : string) : M world bool :=
  fun w => (w, Normal (bool_decide (is_Some (storage w !! p)))).

(** [fs.unlink(p, (err) => { if (err) console.error(...) })]: the file
    is removed; a failure is logged and goes nowhere else. *)
Definition unlink (p : string) : M world unit :=
  fun w =>
    match storage w !! p with
    | Some _ =>
        ({| storage := delete p (storage w); trace := trace w ++ [EvUnlink p]; sent := sent w |},
         Normal tt)
    | None =>
        ({| storage := storage w; trace := trace w ++ [EvUnlinkFailed p]; sent := sent w |},
         Normal tt)
    end.

(** [await deepgram.listen.prerecorded.transcribeFile(audioBuffer, options)] *)
Definition call_provider (e : env) (audio : blob) (options : value) : M world (value * value) :=
  do emit (EvProvider audio options) then
  match transcribeFile e audio options with
  | Resolves result error => ret (result, error)
  | Rejects reason => throw reason
  end.

(** ** The upload middleware *)

Definition fileSize : Z := 10 * 1024 * 1024.

Definition allowedMimes : list string := ["audio/"; "video/webm"].
Definition allowedExtensions : list string :=
  [".wav"; ".mp3"; ".m4a"; ".ogg"; ".webm"; ".flac"].

Definition hasValidMime (p : upload_part) : bool :=
  existsb (fun mime => startsWith (part_mimetype p) mime) allowedMimes.

Definition hasValidExtension (p : upload_part) : bool :=
  existsb (fun ext => endsWith (toLowerCase (part_originalname p)) ext) allowedExtensions.

(** [fileFilter]: [inr tt] is [cb(null, true)], [inl] the error. *)
Definition fileFilter (p : upload_part) : upload_error + unit :=
  if hasValidMime p || hasValidExtension p
  then inr tt
  else inl {| is_MulterError := false; code := ""; message := "Only audio files are allowed!" |}.

(** [storage.destination] and [storage.filename] *)
Definition uploadDir : string := "uploads".

Definition storage_filename (e : env) (p : upload_part) : string :=
  "audio-" ++ uniqueSuffix e ++ extname e (part_originalname p).

(** [upload.single('audio')]. multer is a dependency, modelled by its
    contract: the filter is asked before anything is stored; an accepted
    part is streamed to [destination/filename]; when the stream passes
    [limits.fileSize] the partial file is removed and the request fails
    with [LIMIT_FILE_SIZE]. The result is what [next] is called with:
    an error, or [req.file]. *)
Definition upload_single (e : env) (part : option upload_part)
  : M world (upload_error + option file) :=
  match part with
  | None => ret (inr None)
  | Some p =>
      match fileFilter p with
      | inl err => ret (inl err)
      | inr _ =>
          let name := storage_filename e p in
          let dest := uploadDir ++ "/" ++ name in
          do modify (fun w => {| storage := <[dest := part_data p]> (storage w);
                                 trace := trace w; sent := sent w |}) then
          if fileSize <? blob_size (part_data p)
          then
            do modify (fun w => {| storage := delete dest (storage w);
                                   trace := trace w; sent := sent w |}) then
            ret (inl {| is_MulterError := true; code := "LIMIT_FILE_SIZE";
                        message := "File too large" |})
          else
            ret (inr (Some {| originalname := part_originalname p;
                              mimetype := part_mimetype p;
                              filename := name;
                              path := dest;
                              size := blob_size (part_data p) |}))
      end
  end.

(** ** [app.post('/api/transcribe', ...)] *)

Definition options : value :=
  VObj [("model", VStr "nova-2"); ("language", VStr "en-US");
        ("smart_format", VBool true); ("punctuate", VBool true);
        ("diarize", VBool false); ("utterances", VBool true);
        ("paragraphs", VBool true)].

(** [r?.channels?.[0]?.alternatives?.[0]] for [r = result.results] *)
Definition alternative (results : value) : value :=
  opt_get0 (opt_get (opt_get0 (opt_get results "channels")) "alternatives").

Definition success_body (e : env) (transcript confidence word_count duration words : value) : value :=
  VObj [("success", VBool true);
        ("transcript", transcript);
        ("confidence", confidence);
        ("word_count", word_count);
        ("duration", duration);
        ("words", words);
        ("metadata", VObj [("model", get options "model");
                           ("language", get options "language");
                           ("processed_at", VStr (now e))])].

(** The [try] block. *)
Definition transcribe_try (e : env) (req_file : option file) : M world unit :=
  match req_file with
  | None =>
      res_json 400 (VObj [("error", VStr "No audio file provided");
                          ("message", VStr "Please upload an audio file")])
  | Some f =>
      let* audioBuffer := readFileSync (path f) in
      let* r := call_provider e audioBuffer options in
      let '(result, error) := r in
      if truthy error then
        res_json 500 (VObj [("error", VStr "Transcription failed");
                            ("message", or (get error "message") (VStr "Unknown error occurred"))])
      else
        let* r1 := lift (get_strict result "results") in
        let transcript := or (opt_get (alternative r1) "transcript") (VStr "") in
        let* r2 := lift (get_strict result "results") in
        let confidence := or (opt_get (alternative r2) "confidence") (num 0) in
        let* r3 := lift (get_strict result "results") in
        let words := or (opt_get (alternative r3) "words") (VArr []) in
        do unlink (path f) then
        let word_count := get words "length" in
        let* metadata := lift (get_strict result "metadata") in
        let duration := or (opt_get metadata "duration") (num 0) in
        let* first10 := lift (slice0 words 10) in
        res_json 200 (success_body e transcript confidence word_count duration first10)
  end.

(** The [catch] block. *)
Definition transcribe_catch (req_file : option file) (error : value) : M world unit :=
  do match req_file with
     | None => ret tt
     | Some f =>
         let* ex := existsSync (path f) in
         if ex then unlink (path f) else ret tt
     end then
  let* msg := lift (get_strict error "message") in
  res_json 500 (VObj [("error", VStr "Internal server error");
                      ("message", or msg (VStr "An unexpected error occurred"))]).

Definition transcribe (e : env) (req_file : option file) : M world unit :=
  try_catch (transcribe_try e req_file) (transcribe_catch req_file).

(** ** The error-handling middleware *)
Definition error_middleware (error : upload_error) : M world unit :=
  if is_MulterError error && String.eqb (code error) "LIMIT_FILE_SIZE" then
    res_json 400 (VObj [("error", VStr "File too large");
                        ("message", VStr "Audio file must be smaller than 10MB")])
  else
    res_json 500 (VObj [("error", VStr "Internal server error");
                        ("message", or (VStr (message error)) (VStr "An unexpected error occurred"))]).

(** ** One [POST /api/transcribe] request through the chain *)
Definition post_transcribe (e : env) (part : option upload_part) : M world unit :=
  let* r := upload_single e part in
  match r with
  | inl err => error_middleware err
  | inr req_file => transcribe e req_file
  end.

(** Run a request on given storage; a [Throw] here is a rejection of the
    handler's promise that nothing handles. *)
Definition run {A} (m : M world A) (st : gmap string blob) : world * completion A :=
  m {| storage := st; trace := []; sent := None |}.

Definition provider_called (w : world) : bool :=
  existsb (fun ev => match ev with EvProvider _ _ => true | _ => false end) (trace w).

End Relay.

(* ===================================================================== *)
(** * The capture/upload client ([public/script.js]) *)
(* ===================================================================== *)
Module Client.
Import JS.

(** ** Data *)

(** A [Blob] or [File]: declared type, name (empty for a recorded blob),
    byte count and the identities of the pieces it was made of. *)
Record blob : Type := {
  blob_name : string;
  blob_type : string;
  blob_size : Z;
  blob_parts : list string
}.

(** Text put on the page. Number formatting stays symbolic. *)
Inductive text : Type :=
| Lit (s : string)
| Str (v : value)              (* String(v) for a [v] that is not a string *)
| Percent (v : value)          (* `${Math.round(v * 100)}%` *)
| Fixed1 (v : value)           (* `${v.toFixed(1)}s` *)
| Cat (a b : text).

Definition text_of (v : value) : text :=
  match v with
  | VStr s => Lit s
  | _ => Str v
  end.

(** The two bodies [transcriptionResult.innerHTML] is ever given. *)
Inductive html : Type :=
| Placeholder
| TranscriptionContent (p : text).

Inductive dom_value : Type :=
| DBool (b : bool)
| DStr (s : string)
| DText (t : text)
| DHtml (h : html)
| DBlob (b : blob).

Inductive recorder_state : Type := inactive | recording.

(** A [MediaRecorder]: the stream it records, its options and state. *)
Record MediaRecorder : Type := {
  rec_stream : nat;
  rec_mimeType : string;
  rec_state : recorder_state
}.

(** What the page does to the outside, in order. *)
Inductive effect : Type :=
| ShowStatus (message : text) (type : string)
| Fetch (audio : blob)                        (* POST /api/transcribe *)
| ClipboardWrite (t : text)
| Download (name : string) (content : text)
| StopTracks (stream : nat)
| CloseAudioContext (stream : nat).

(** [this] of [SpeechToTextApp], the page properties it writes (keyed by
    element and property) and the effects so far. *)
Record app : Type := {
  mediaRecorder : option MediaRecorder;
  audioChunks : list blob;
  isRecording : bool;
  audioContext : option nat;
  currentTranscription : value;
  dom : gmap (string * string) dom_value;
  log : list effect
}.

Definition set_mediaRecorder (x : option MediaRecorder) (s : app) : app :=
  {| mediaRecorder := x; audioChunks := audioChunks s; isRecording := isRecording s;
     audioContext := audioContext s; currentTranscription := currentTranscription s;
     dom := dom s; log := log s |}.

Definition set_audioChunks (x : list blob) (s : app) : app :=
  {| mediaRecorder := mediaRecorder s; audioChunks := x; isRecording := isRecording s;
     audioContext := audioContext s; currentTranscription := currentTranscription s;
     dom := dom s; log := log s |}.

Definition set_isRecording (x : bool) (s : app) : app :=
  {| mediaRecorder := mediaRecorder s; audioChunks := audioChunks s; isRecording := x;
     audioContext := audioContext s; currentTranscription := currentTranscription s;
     dom := dom s; log := log s |}.

Definition set_audioContext (x : option nat) (s : app) : app :=
  {| mediaRecorder := mediaRecorder s; audioChunks := audioChunks s; isRecording := isRecording s;
     audioContext := x; currentTranscription := currentTranscription s;
     dom := dom s; log := log s |}.

Definition set_currentTranscription (x : value) (s : app) : app :=
  {| mediaRecorder := mediaRecorder s; audioChunks := audioChunks s; isRecording := isRecording s;
     audioContext := audioContext s; currentTranscription := x;
     dom := dom s; log := log s |}.

(** [element.property = x] *)
Definition assign (element property : string) (x : dom_value) (s : app) : app :=
  {| mediaRecorder := mediaRecorder s; audioChunks := audioChunks s; isRecording := isRecording s;
     audioContext := audioContext s; currentTranscription := currentTranscription s;
     dom := <[(element, property) := x]> (dom s); log := log s |}.

Definition perform (e : effect) (s : app) : app :=
  {| mediaRecorder := mediaRecorder s; audioChunks := audioChunks s; isRecording := isRecording s;
     audioContext := audioContext s; currentTranscription := currentTranscription s;
     dom := dom s; log := log s ++ [e] |}.

(** [element.disabled]; a button is enabled until something disables it. *)
Definition disabled (element : string) (s : app) : bool :=
  match dom s !! (element, "disabled") with
  | Some (DBool b) => b
  | _ => false
  end.

(** ** Status and processing indicator *)

(** [showStatus(message, type)]: the message is appended to the status
    area (its removal five seconds later is not modelled). *)
Definition showStatus (message : text) (type : string) (s : app) : app :=
  perform (ShowStatus message type) s.

Definition showProcessing (show : bool) (s : app) : app :=
  assign "processingIndicator" "style.display" (DStr (if show then "block" else "none")) s.

(** ** Recording *)

Definition updateRecordingUI (rec : bool) (s : app) : app :=
  if rec then
    assign "bars" "class.active" (DBool true)
      (assign "statusText" "class.recording" (DBool true)
        (assign "statusText" "textContent" (DText (Lit "Recording..."))
          (assign "stopBtn" "disabled" (DBool false)
            (assign "recordBtn" "disabled" (DBool true) s))))
  else
    assign "bars" "class.active" (DBool false)
      (assign "statusText" "class.recording" (DBool false)
        (assign "statusText" "textContent" (DText (Lit "Ready to record"))
          (assign "stopBtn" "disabled" (DBool true)
            (assign "recordBtn" "disabled" (DBool false) s)))).

(** [startAudioVisualization(stream)]: the audio context, analyser and
    source are built on the stream. The per-frame loop only writes bar
    heights and is left out. *)
Definition startAudioVisualization (stream : nat) (s : app) : app :=
  set_audioContext (Some stream) s.

Definition stopAudioVisualization (s : app) : app :=
  match audioContext s with
  | Some c => set_audioContext None (perform (CloseAudioContext c) s)
  | None => s
  end.

(** [transcribeAudio] up to its [await fetch(...)]: the indicator is
    shown and the request leaves. *)
Definition transcribeAudio_send (audioData : blob) (s : app) : app :=
  perform (Fetch audioData) (showProcessing true s).

Definition processAudioBlob (b : blob) (s : app) : app :=
  transcribeAudio_send b
    (assign "audioPreview" "style.display" (DStr "block")
      (assign "audioPreview" "src" (DBlob b) s)).

(** [new Blob(chunks, { type })] *)
Definition new_Blob (chunks : list blob) (type : string) : blob :=
  {| blob_name := "";
     blob_type := type;
     blob_size := fold_right (fun c n => blob_size c + n) 0 chunks;
     blob_parts := concat (map blob_parts chunks) |}.

(** [mediaRecorder.ondataavailable] *)
Definition ondataavailable (data : blob) (s : app) : app :=
  if 0 <? blob_size data then set_audioChunks (audioChunks s ++ [data]) s else s.

(** [mediaRecorder.onstop], for the recorder started on [stream] *)
Definition onstop (stream : nat) (s : app) : app :=
  let audioBlob := new_Blob (audioChunks s) "audio/webm" in
  perform (StopTracks stream) (updateRecordingUI false (processAudioBlob audioBlob s)).

(** What the browser answers to [startRecording]: the outcome of
    [getUserMedia] (a stream, or the rejection), and the error
    [new MediaRecorder] throws, if it does. *)
Record media : Type := {
  getUserMedia : completion nat;
  MediaRecorder_error : option value
}.

(** [startRecording()], from the point where [getUserMedia] settles. *)
Definition startRecording (m : media) : M app unit :=
  try_catch
    (let* stream := lift (getUserMedia m) in
     let* recorder :=
       match MediaRecorder_error m with
       | Some err => throw err
       | None => ret {| rec_stream := stream; rec_mimeType := "audio/webm;codecs=opus";
                        rec_state := inactive |}
       end in
     do modify (set_mediaRecorder (Some recorder)) then
     do modify (set_audioChunks []) then
     do modify (set_isRecording true) then
     (* mediaRecorder.start(1000) *)
     do modify (set_mediaRecorder (Some {| rec_stream := stream;
                                           rec_mimeType := rec_mimeType recorder;
                                           rec_state := recording |})) then
     do modify (updateRecordingUI true) then
     do modify (startAudioVisualization stream) then
     modify (showStatus (Lit "Recording started") "success"))
    (fun error =>
       let* msg := lift (get_strict error "message") in
       modify (showStatus (Cat (Lit "Failed to start recording: ") (text_of msg)) "error")).

(** A click on the record button whose microphone request settles
    before anything else happens: a disabled button gets no [click]. *)
Definition click_recordBtn (m : media) : M app unit :=
  fun s => if disabled "recordBtn" s then (s, Normal tt) else startRecording m s.

Definition stopRecording (s : app) : app :=
  match mediaRecorder s with
  | Some r =>
      if isRecording s then
        showStatus (Lit "Recording stopped") "success"
          (stopAudioVisualization
            (set_isRecording false
              (set_mediaRecorder (Some {| rec_stream := rec_stream r;
                                          rec_mimeType := rec_mimeType r;
                                          rec_state := inactive |}) s)))
      else s
  | None => s
  end.

(** ** Choosing a file *)

(** [handleFileSelect(event)], [files] being [event.target.files] *)
Definition handleFileSelect (files : list blob) (s : app) : app :=
  match files with
  | file :: _ => transcribeAudio_send file s
  | [] => s
  end.

Definition handleDragOver (s : app) : app :=
  assign "uploadArea" "class.dragover" (DBool true) s.

Definition handleDragLeave (s : app) : app :=
  assign "uploadArea" "class.dragover" (DBool false) s.

(** [handleFileDrop(event)], [files] being [event.dataTransfer.files] *)
Definition handleFileDrop (files : list blob) (s : app) : app :=
  let s := assign "uploadArea" "class.dragover" (DBool false) s in
  match files with
  | file :: _ =>
      if startsWith (blob_type file) "audio/"
      then transcribeAudio_send file s
      else showStatus (Lit "Please upload an audio file") "error" s
  | [] => s
  end.

(** ** Transcription results *)

(** [v.toFixed(1)] : a method of numbers only. *)
Definition toFixed1 (v : value) : completion text :=
  match v with
  | VNum _ => Normal (Fixed1 v)
  | VUndefined | VNull =>
      Throw (TypeError "Cannot read properties of undefined (reading 'toFixed')")
  | _ => Throw (TypeError "result.duration.toFixed is not a function")
  end.

Definition displayTranscription (result : value) : M app unit :=
  do modify (assign "transcriptionResult" "innerHTML"
               (DHtml (TranscriptionContent
                         (text_of (or (get result "transcript")
                                      (VStr "No speech detected in the audio.")))))) then
  do modify (assign "confidenceScore" "textContent" (DText (Percent (get result "confidence")))) then
  do modify (assign "wordCount" "textContent" (DText (text_of (get result "word_count")))) then
  let* duration := lift (toFixed1 (get result "duration")) in
  do modify (assign "audioDuration" "textContent" (DText duration)) then
  let* model := lift (get_strict (get result "metadata") "model") in
  do modify (assign "modelUsed" "textContent" (DText (text_of model))) then
  do modify (assign "transcriptionMeta" "style.display" (DStr "block")) then
  do modify (assign "copyBtn" "disabled" (DBool false)) then
  do modify (assign "downloadBtn" "disabled" (DBool false)) then
  do modify (assign "clearBtn" "disabled" (DBool false)) then
  modify (set_currentTranscription result).

(** How the request of [transcribeAudio] ends: [fetch] rejects,
    [response.json()] rejects, or a body is parsed. *)
Inductive fetch_outcome : Type :=
| FetchRejects (reason : value)
| JsonRejects (reason : value)
| Json (result : value).

(** [transcribeAudio] from the point where the request settles. *)
Definition transcribeAudio_settle (o : fetch_outcome) : M app unit :=
  try_finally
    (try_catch
       (match o with
        | FetchRejects reason => throw reason
        | JsonRejects reason => throw reason
        | Json result =>
            let* success := lift (get_strict result "success") in
            if truthy success then
              do displayTranscription result then
              modify (showStatus (Lit "Transcription completed successfully!") "success")
            else
              throw (Error (or (get result "message") (VStr "Transcription failed")))
        end)
       (fun error =>
          let* msg := lift (get_strict error "message") in
          modify (showStatus (Cat (Lit "Transcription failed: ") (text_of msg)) "error")))
    (showProcessing false).

(** The whole of [transcribeAudio(audioData)], when nothing else runs
    while the request is in flight. *)
Definition transcribeAudio (audioData : blob) (o : fetch_outcome) : M app unit :=
  do modify (transcribeAudio_send audioData) then transcribeAudio_settle o.

(** [copyTranscription()]; [written] tells whether the clipboard write
    is fulfilled. *)
Definition copyTranscription (written : bool) (s : app) : app :=
  let c := currentTranscription s in
  if truthy c && truthy (get c "transcript") then
    let s := perform (ClipboardWrite (text_of (get c "transcript"))) s in
    if written
    then showStatus (Lit "Transcription copied to clipboard!") "success" s
    else showStatus (Lit "Failed to copy transcription") "error" s
  else s.

(** The text file of [downloadTranscription], [generated] being
    [new Date().toLocaleString()]. *)
Definition download_content (generated : string) (model : value) (confidence : value)
    (duration : text) (word_count transcript : value) : text :=
  Cat (Lit ("Speech to Text Transcription" ++ "
Generated: " ++ generated ++ "
Model: "))
 (Cat (text_of model)
 (Cat (Lit "
Confidence: ")
 (Cat (Percent confidence)
 (Cat (Lit "
Duration: ")
 (Cat duration
 (Cat (Lit "
Word Count: ")
 (Cat (text_of word_count)
 (Cat (Lit "

Transcript:
")
      (text_of transcript))))))))).

(** [downloadTranscription()]; [stamp] is [Date.now()] in digits. *)
Definition downloadTranscription (generated stamp : string) : M app unit :=
  fun s =>
    let c := currentTranscription s in
    if truthy c then
      (let* model := lift (get_strict (get c "metadata") "model") in
       let* duration := lift (toFixed1 (get c "duration")) in
       let content := download_content generated model (get c "confidence") duration
                        (get c "word_count") (get c "transcript") in
       do modify (perform (Download ("transcription-" ++ stamp ++ ".txt") content)) then
       modify (showStatus (Lit "Transcription downloaded!") "success")) s
    else (s, Normal tt).

Definition clearTranscription (s : app) : app :=
  showStatus (Lit "Transcription cleared") "success"
    (assign "audioPreview" "style.display" (DStr "none")
      (set_currentTranscription VNull
        (assign "clearBtn" "disabled" (DBool true)
          (assign "downloadBtn" "disabled" (DBool true)
            (assign "copyBtn" "disabled" (DBool true)
              (assign "transcriptionMeta" "style.display" (DStr "none")
                (assign "transcriptionResult" "innerHTML" (DHtml Placeholder) s))))))).

(** ** Start-up *)

(** [checkMicrophonePermission()], from the point where [getUserMedia]
    settles: a granted stream is released at once; a refusal disables
    the record button. *)
Definition checkMicrophonePermission (mic : completion nat) : M app unit :=
  try_catch
    (let* stream := lift mic in
     do modify (perform (StopTracks stream)) then
     modify (showStatus (Lit "Microphone access granted") "success"))
    (fun error =>
       do modify (showStatus
                    (Lit "Microphone access denied. File upload is still available.")
                    "error") then
       modify (assign "recordBtn" "disabled" (DBool true))).

End Client.

(* ===================================================================== *)
(** * Vocabulary of the properties *)
(* ===================================================================== *)
Module Props.
Import JS.

(** The field [k] of the provider's first alternative, as the relay
    reads it: [result.results?.channels?.[0]?.alternatives?.[0]?.k]. *)
Definition provider_field (result : value) (k : string) : value :=
  opt_get (Relay.alternative (get result "results")) k.

(** A field is absent when it reads as [undefined] or [null]. *)
Definition absent (result : value) (k : string) : Prop :=
  nullish (provider_field result k) = true.

(** [req.file] for an accepted part. *)
Definition stored_file (e : Relay.env) (p : Relay.upload_part) : Relay.file :=
  {| Relay.originalname := Relay.part_originalname p;
     Relay.mimetype := Relay.part_mimetype p;
     Relay.filename := Relay.storage_filename e p;
     Relay.path := Relay.uploadDir ++ "/" ++ Relay.storage_filename e p;
     Relay.size := Relay.blob_size (Relay.part_data p) |}.

(** A part passes the type filter and the size limit. *)
Definition accepted (p : Relay.upload_part) : bool :=
  (Relay.hasValidMime p || Relay.hasValidExtension p)
  && (Relay.blob_size (Relay.part_data p) <=? Relay.fileSize).

(** A part fails the type filter or the size limit. *)
Definition rejected (p : Relay.upload_part) : bool :=
  negb (Relay.hasValidMime p || Relay.hasValidExtension p)
  || (Relay.fileSize <? Relay.blob_size (Relay.part_data p)).

(** The response of one request on given storage, and what is left. *)
Definition answer (e : Relay.env) (part : option Relay.upload_part)
    (st : gmap string Relay.blob) : option Relay.response :=
  Relay.sent (fst (Relay.run (Relay.post_transcribe e part) st)).

Definition left_on_storage (e : Relay.env) (part : option Relay.upload_part)
    (st : gmap string Relay.blob) : gmap string Relay.blob :=
  Relay.storage (fst (Relay.run (Relay.post_transcribe e part) st)).

(** Following the specification's words, "the number of words in the
    transcript": the maximal runs of characters other than blanks. *)
Definition is_blank (c : ascii) : bool :=
  (nat_of_ascii c =? 32)%nat || (nat_of_ascii c =? 9)%nat
  || (nat_of_ascii c =? 10)%nat || (nat_of_ascii c =? 13)%nat.

Fixpoint count_words_from (in_word : bool) (s : string) : nat :=
  match s with
  | EmptyString => 0%nat
  | String c rest =>
      if is_blank c then count_words_from false rest
      else if in_word then count_words_from true rest
      else S (count_words_from true rest)
  end.

Definition words_in_transcript (s : string) : nat := count_words_from false s.

(** The response counts the words of the transcript it returns. *)
Definition word_count_matches_transcript (r : Relay.response) : Prop :=
  exists t, get (Relay.body r) "transcript" = VStr t /\
            get (Relay.body r) "word_count" = num (Z.of_nat (words_in_transcript t)).

(** A 4xx status. *)
Definition client_error (code : Z) : bool := (400 <=? code) && (code <? 500).

End Props.

(* ===================================================================== *)
(** * Sample requests and pages *)
(* ===================================================================== *)
Module Samples.
Import JS.

Definition clip : Relay.blob := {| Relay.blob_id := "clip"; Relay.blob_size := 48044 |}.

Definition wav_part : Relay.upload_part :=
  {| Relay.part_originalname := "hello.wav"; Relay.part_mimetype := "audio/wav";
     Relay.part_data := clip |}.

Definition txt_part : Relay.upload_part :=
  {| Relay.part_originalname := "notes.txt"; Relay.part_mimetype := "text/plain";
     Relay.part_data := {| Relay.blob_id := "notes"; Relay.blob_size := 12 |} |}.

Definition big_part : Relay.upload_part :=
  {| Relay.part_originalname := "long.mp3"; Relay.part_mimetype := "audio/mpeg";
     Relay.part_data := {| Relay.blob_id := "long"; Relay.blob_size := 15 * 1024 * 1024 |} |}.

(** A platform whose provider call ends as [o]. *)
Definition platform (o : Relay.provider_outcome) : Relay.env :=
  {| Relay.uniqueSuffix := "1719044134324-123456789";
     Relay.extname := fun name => if endsWith name ".wav" then ".wav" else "";
     Relay.now := "2025-06-22T08:15:34.324Z";
     Relay.transcribeFile := fun _ _ => o |}.

(** The provider reports an error. *)
Definition provider_error : Relay.provider_outcome :=
  Relay.Resolves VNull (Error (VStr "Bad Request")).

Definition one_alternative (fields : list (string * value)) : value :=
  VObj [("metadata", VObj [("duration", VNum (Qmake 3 1))]);
        ("results", VObj [("channels", VArr [VObj [("alternatives", VArr [VObj fields])]])])].

(** A result with a transcript and no word list. *)
Definition transcript_only : Relay.provider_outcome :=
  Relay.Resolves (one_alternative [("transcript", VStr "hello world")]) VNull.

(** A result with no [results] at all. *)
Definition bare_result : Relay.provider_outcome :=
  Relay.Resolves (VObj []) VNull.

Definition timed_word (w : string) : value :=
  VObj [("word", VStr w); ("start", VNum (Qmake 0 1)); ("end", VNum (Qmake 1 2))].

(** A result with twelve timed words. *)
Definition twelve_words : Relay.provider_outcome :=
  Relay.Resolves
    (one_alternative
       [("transcript", VStr "a b c d e f g h i j k l");
        ("confidence", VNum (Qmake 19 20));
        ("words", VArr (map timed_word ["a";"b";"c";"d";"e";"f";"g";"h";"i";"j";"k";"l"]))])
    VNull.

End Samples.

(* ===================================================================== *)
(** * Vocabulary and samples for the client *)
(* ===================================================================== *)
Module Pages.
Import JS.

(** The page as the constructor leaves it. *)
Definition fresh : Client.app :=
  {| Client.mediaRecorder := None; Client.audioChunks := []; Client.isRecording := false;
     Client.audioContext := None; Client.currentTranscription := VUndefined;
     Client.dom := ∅; Client.log := [] |}.

Definition notes_txt : Client.blob :=
  {| Client.blob_name := "notes.txt"; Client.blob_type := "text/plain";
     Client.blob_size := 12; Client.blob_parts := ["notes"] |}.

Definition hello_wav : Client.blob :=
  {| Client.blob_name := "hello.wav"; Client.blob_type := "audio/wav";
     Client.blob_size := 48044; Client.blob_parts := ["hello"] |}.

Definition chunk (id : string) : Client.blob :=
  {| Client.blob_name := ""; Client.blob_type := "audio/webm;codecs=opus";
     Client.blob_size := 16000; Client.blob_parts := [id] |}.

(** The microphone is granted and gives [stream]. *)
Definition granted (stream : nat) : Client.media :=
  {| Client.getUserMedia := Normal stream; Client.MediaRecorder_error := None |}.

(** A success body as the relay sends it. *)
Definition success (transcript : string) (word_count : Z) : value :=
  VObj [("success", VBool true);
        ("transcript", VStr transcript);
        ("confidence", VNum (Qmake 19 20));
        ("word_count", num word_count);
        ("duration", VNum (Qmake 3 1));
        ("words", VArr []);
        ("metadata", VObj [("model", VStr "nova-2"); ("language", VStr "en-US");
                           ("processed_at", VStr "2025-06-22T08:15:34.324Z")])].

(** A failure body as the relay sends it. *)
Definition failure (error message : string) : value :=
  VObj [("error", VStr error); ("message", VStr message)].

(** A page showing an earlier result. *)
Definition showing (result : value) : Client.app :=
  fst (Client.displayTranscription result fresh).

(** The response does not carry a truthy [success]; a rejected request
    counts as failed too. *)
Definition indicates_failure (o : Client.fetch_outcome) : bool :=
  match o with
  | Client.Json result => nullish result || negb (truthy (get result "success"))
  | _ => true
  end.

(** Everything of the page but the processing indicator and the log. *)
Definition same_but_indicator (s s' : Client.app) : Prop :=
  Client.mediaRecorder s' = Client.mediaRecorder s /\
  Client.audioChunks s' = Client.audioChunks s /\
  Client.isRecording s' = Client.isRecording s /\
  Client.audioContext s' = Client.audioContext s /\
  Client.currentTranscription s' = Client.currentTranscription s /\
  forall k, k <> ("processingIndicator", "style.display") ->
            Client.dom s' !! k = Client.dom s !! k.

End Pages.

(* ===================================================================== *)
(** * Further vocabulary *)
(* ===================================================================== *)
Module Views.
Import JS.

(** The provider calls and the deletions a request made, in order. *)
Definition provider_calls (w : Relay.world) : list (Relay.blob * value) :=
  omap (fun ev => match ev with Relay.EvProvider a o => Some (a, o) | _ => None end)
       (Relay.trace w).

Definition responses (w : Relay.world) : list Relay.response :=
  omap (fun ev => match ev with Relay.EvRespond r => Some r | _ => None end)
       (Relay.trace w).

(** The world one request leaves. *)
Definition after (e : Relay.env) (part : option Relay.upload_part)
    (st : gmap string Relay.blob) : Relay.world :=
  fst (Relay.run (Relay.post_transcribe e part) st).

(** The two error bodies of the relay: [{ error, message }]. *)
Definition error_body (error : string) (message : value) : value :=
  VObj [("error", VStr error); ("message", message)].

(** Every way one request can end, by what came in and what the
    provider did. *)
Inductive ending (e : Relay.env) (part : option Relay.upload_part) (st : gmap string Relay.blob)
  : Relay.world -> Prop :=
| ends_turned_away (r : Relay.response) (err : string) (msg : value) :
    (forall p, part = Some p -> Props.accepted p = false) ->
    r = {| Relay.status := 400; Relay.body := error_body err msg |} \/
    r = {| Relay.status := 500; Relay.body := error_body err msg |} ->
    ending e part st {| Relay.storage := match part with
                                       | Some p => delete (Relay.path (Props.stored_file e p)) st
                                       | None => st
                                       end;
                      Relay.trace := [Relay.EvRespond r]; Relay.sent := Some r |}
| ends_turned_away_by_type (p : Relay.upload_part) (r : Relay.response) (msg : value) :
    part = Some p -> Props.accepted p = false ->
    r = {| Relay.status := 500; Relay.body := error_body "Internal server error" msg |} ->
    ending e part st {| Relay.storage := st;
                      Relay.trace := [Relay.EvRespond r]; Relay.sent := Some r |}
| ends_provider_error (p : Relay.upload_part) (r : Relay.response) (msg : value) :
    part = Some p -> Props.accepted p = true ->
    r = {| Relay.status := 500; Relay.body := error_body "Transcription failed" msg |} ->
    ending e part st {| Relay.storage := <[Relay.path (Props.stored_file e p) := Relay.part_data p]> st;
                      Relay.trace := [Relay.EvProvider (Relay.part_data p) Relay.options;
                                      Relay.EvRespond r];
                      Relay.sent := Some r |}
| ends_answered (p : Relay.upload_part) (r : Relay.response) :
    part = Some p -> Props.accepted p = true ->
    (Relay.status r = 200 /\ get (Relay.body r) "success" = VBool true) \/
    (exists msg, r = {| Relay.status := 500;
                        Relay.body := error_body "Internal server error" msg |}) ->
    ending e part st {| Relay.storage := delete (Relay.path (Props.stored_file e p)) st;
                      Relay.trace := [Relay.EvProvider (Relay.part_data p) Relay.options;
                                      Relay.EvUnlink (Relay.path (Props.stored_file e p)); Relay.EvRespond r];
                      Relay.sent := Some r |}
| ends_unanswered (p : Relay.upload_part) (reason : value) :
    part = Some p -> Props.accepted p = true ->
    Relay.transcribeFile e (Relay.part_data p) Relay.options = Relay.Rejects reason ->
    nullish reason = true ->
    ending e part st {| Relay.storage := delete (Relay.path (Props.stored_file e p)) st;
                      Relay.trace := [Relay.EvProvider (Relay.part_data p) Relay.options;
                                      Relay.EvUnlink (Relay.path (Props.stored_file e p))];
                      Relay.sent := None |}.

(** The chunks [ondataavailable] keeps. *)
Definition kept (chunks : list Client.blob) : list Client.blob :=
  filter (fun c => 0 < Client.blob_size c) chunks.

(** The result-related part of the page: what [displayTranscription]
    stores and which buttons it enables. *)
Definition same_stored_result (s s' : Client.app) : Prop :=
  Client.currentTranscription s' = Client.currentTranscription s /\
  Client.disabled "copyBtn" s' = Client.disabled "copyBtn" s /\
  Client.disabled "downloadBtn" s' = Client.disabled "downloadBtn" s /\
  Client.disabled "clearBtn" s' = Client.disabled "clearBtn" s /\
  Client.dom s' !! ("transcriptionMeta", "style.display") =
    Client.dom s !! ("transcriptionMeta", "style.display").

(** A success body [displayTranscription] can render to the end: its
    [duration] is a number and it has a [metadata]. *)
Definition renderable (result : value) : bool :=
  match get result "duration" with
  | VNum _ => negb (nullish (get result "metadata"))
  | _ => false
  end.

(** Nothing is stored, or what is stored can be rendered. *)
Definition stored_ok (s : Client.app) : Prop :=
  truthy (Client.currentTranscription s) = false \/
  renderable (Client.currentTranscription s) = true.

(** Nothing of the page changes but the effects performed. *)
Definition only_effects (s s' : Client.app) (es : list Client.effect) : Prop :=
  s' = {| Client.mediaRecorder := Client.mediaRecorder s;
          Client.audioChunks := Client.audioChunks s;
          Client.isRecording := Client.isRecording s;
          Client.audioContext := Client.audioContext s;
          Client.currentTranscription := Client.currentTranscription s;
          Client.dom := Client.dom s;
          Client.log := Client.log s ++ es |}.

End Views.

(* ===================================================================== *)
(** * More sample requests and pages *)
(* ===================================================================== *)
Module Cases.
Import JS.

(** The result a provider outcome carries. *)
Definition result_of (o : Relay.provider_outcome) : value :=
  match o with
  | Relay.Resolves result _ => result
  | Relay.Rejects _ => VUndefined
  end.

(** A result with two timed words. *)
Definition two_words : Relay.provider_outcome :=
  Relay.Resolves
    (Samples.one_alternative
       [("transcript", VStr "hello world");
        ("confidence", VNum (Qmake 19 20));
        ("words", VArr [Samples.timed_word "hello"; Samples.timed_word "world"])])
    VNull.

(** The provider call rejects with an error. *)
Definition timeout : Relay.provider_outcome :=
  Relay.Rejects (Error (VStr "Request timed out")).

(** The provider call rejects with nothing. *)
Definition bare_rejection : Relay.provider_outcome := Relay.Rejects VUndefined.

(** The provider resolves with neither result nor error. *)
Definition nothing : Relay.provider_outcome := Relay.Resolves VNull VNull.


(** Storage holding one older upload. *)
Definition old_upload : gmap string Relay.blob :=
  {[ "uploads/audio-1-2.mp3" := {| Relay.blob_id := "old"; Relay.blob_size := 9 |} ]}.

(** The microphone is refused. *)
Definition refused : Client.media :=
  {| Client.getUserMedia := Throw (Error (VStr "Permission denied"));
     Client.MediaRecorder_error := None |}.

(** A success body without a duration. *)
Definition no_duration : value :=
  VObj [("success", VBool true); ("transcript", VStr "hello");
        ("metadata", VObj [("model", VStr "nova-2")])].

End Cases.

(* ===================================================================== *)
(** * Properties of the relay *)
(* ===================================================================== *)
Import JS Props.

Ltac run_relay :=
  cbv beta delta [Relay.run Relay.transcribe try_catch Relay.transcribe_try Relay.transcribe_catch
    Relay.post_transcribe Relay.upload_single Relay.error_middleware bind Relay.readFileSync
    Relay.call_provider Relay.emit modify Relay.res_json lift ret throw Relay.unlink
    Relay.existsSync get_strict answer left_on_storage] in *.

Section RelayFacts.
Variable e : Relay.env.

(** The filter decides by the declared type or the lowered name. *)
Lemma fileFilter_accepts_iff (p : Relay.upload_part) :
  Relay.fileFilter p = inr tt <->
  (startsWith (Relay.part_mimetype p) "audio/" = true \/
   startsWith (Relay.part_mimetype p) "video/webm" = true \/
   exists ext, In ext Relay.allowedExtensions /\
               endsWith (toLowerCase (Relay.part_originalname p)) ext = true).
Proof.
  unfold Relay.fileFilter.
  destruct (Relay.hasValidMime p || Relay.hasValidExtension p) eqn:Hf.
  - split; [intros _ | reflexivity].
    apply orb_true_iff in Hf as [Hm | Hx].
    + unfold Relay.hasValidMime, Relay.allowedMimes in Hm. simpl in Hm.
      rewrite orb_false_r in Hm. apply orb_true_iff in Hm as [Hm | Hm]; auto.
    + right; right. unfold Relay.hasValidExtension in Hx.
      apply existsb_exists in Hx as (ext & Hin & Hend). eauto.
  - split; [discriminate |]. intros H. exfalso.
    apply orb_false_iff in Hf as [Hm Hx].
    unfold Relay.hasValidMime, Relay.allowedMimes in Hm. simpl in Hm.
    rewrite orb_false_r in Hm. apply orb_false_iff in Hm as [Hm1 Hm2].
    destruct H as [H | [H | (ext & Hin & Hend)]]; try congruence.
    assert (Relay.hasValidExtension p = true); [| congruence].
    unfold Relay.hasValidExtension. apply existsb_exists. eauto.
Qed.

(** An accepted part reaches the route with its file on storage. *)
Lemma post_transcribe_accepted (p : Relay.upload_part) (st : gmap string Relay.blob) :
  accepted p = true ->
  Relay.run (Relay.post_transcribe e (Some p)) st =
  Relay.transcribe e (Some (stored_file e p))
    {| Relay.storage := <[Relay.path (stored_file e p) := Relay.part_data p]> st;
       Relay.trace := []; Relay.sent := None |}.
Proof.
  unfold accepted. intros [Hf Hs]%andb_true_iff.
  unfold Relay.run, Relay.post_transcribe, Relay.upload_single, Relay.fileFilter, bind, modify, ret.
  rewrite Hf. simpl.
  assert (Hlt : (Relay.fileSize <? Relay.blob_size (Relay.part_data p)) = false)
    by (apply Z.ltb_ge, Z.leb_le, Hs).
  rewrite Hlt.
  reflexivity.
Qed.

(** The provider reports an error: the route answers 500 and returns. *)
Lemma transcribe_provider_error (f : Relay.file) (w : Relay.world) (b : Relay.blob)
    (result error : value) :
  Relay.storage w !! Relay.path f = Some b ->
  Relay.transcribeFile e b Relay.options = Relay.Resolves result error ->
  truthy error = true ->
  Relay.transcribe e (Some f) w =
    (let r := {| Relay.status := 500;
                 Relay.body := VObj [("error", VStr "Transcription failed");
                                     ("message", or (get error "message")
                                                    (VStr "Unknown error occurred"))] |} in
     {| Relay.storage := Relay.storage w;
        Relay.trace := (Relay.trace w ++ [Relay.EvProvider b Relay.options]) ++ [Relay.EvRespond r];
        Relay.sent := Some r |}, Normal tt).
Proof.
  intros Hst Hp He. run_relay. simpl. rewrite Hst, Hp. simpl. rewrite He. reflexivity.
Qed.

(** The provider answers and [words] can be sliced: the file is removed
    and the route answers 200. *)
Lemma transcribe_success (f : Relay.file) (w : Relay.world) (b : Relay.blob)
    (result error first10 : value) :
  Relay.storage w !! Relay.path f = Some b ->
  Relay.transcribeFile e b Relay.options = Relay.Resolves result error ->
  truthy error = false ->
  nullish result = false ->
  slice0 (or (provider_field result "words") (VArr [])) 10 = Normal first10 ->
  Relay.transcribe e (Some f) w =
    (let r := {| Relay.status := 200;
                 Relay.body := Relay.success_body e
                   (or (provider_field result "transcript") (VStr ""))
                   (or (provider_field result "confidence") (num 0))
                   (get (or (provider_field result "words") (VArr [])) "length")
                   (or (opt_get (get result "metadata") "duration") (num 0))
                   first10 |} in
     {| Relay.storage := delete (Relay.path f) (Relay.storage w);
        Relay.trace := ((Relay.trace w ++ [Relay.EvProvider b Relay.options])
                        ++ [Relay.EvUnlink (Relay.path f)]) ++ [Relay.EvRespond r];
        Relay.sent := Some r |}, Normal tt).
Proof.
  intros Hst Hp He Hn Hs. unfold provider_field in *. run_relay. simpl.
  rewrite Hst, Hp. simpl. rewrite He, Hn. simpl. rewrite Hst, Hs. reflexivity.
Qed.

(** Every 200 answer of the route is the success body built from the
    provider's result. *)
Lemma transcribe_200_inv (rf : option Relay.file) (w0 w : Relay.world)
    (c : completion unit) (r : Relay.response) :
  Relay.transcribe e rf w0 = (w, c) ->
  Relay.sent w0 = None ->
  Relay.sent w = Some r ->
  Relay.status r = 200 ->
  exists f b result error first10,
    rf = Some f /\ Relay.storage w0 !! Relay.path f = Some b /\
    Relay.transcribeFile e b Relay.options = Relay.Resolves result error /\
    truthy error = false /\ nullish result = false /\
    slice0 (or (provider_field result "words") (VArr [])) 10 = Normal first10 /\
    Relay.body r = Relay.success_body e
               (or (provider_field result "transcript") (VStr ""))
               (or (provider_field result "confidence") (num 0))
               (get (or (provider_field result "words") (VArr [])) "length")
               (or (opt_get (get result "metadata") "duration") (num 0))
               first10.
Proof.
  intros H H0 Hs Hst. run_relay.
  repeat (case_match; simplify_eq/=); try congruence.
  eexists _, _, _, _, _. repeat split; eauto.
Qed.

(** The same, for a request through the whole chain. *)
Lemma answer_200_inv (part : option Relay.upload_part) (st : gmap string Relay.blob)
    (r : Relay.response) :
  answer e part st = Some r ->
  Relay.status r = 200 ->
  exists p result error first10,
    part = Some p /\ accepted p = true /\
    Relay.transcribeFile e (Relay.part_data p) Relay.options = Relay.Resolves result error /\
    truthy error = false /\ nullish result = false /\
    slice0 (or (provider_field result "words") (VArr [])) 10 = Normal first10 /\
    Relay.body r = Relay.success_body e
               (or (provider_field result "transcript") (VStr ""))
               (or (provider_field result "confidence") (num 0))
               (get (or (provider_field result "words") (VArr [])) "length")
               (or (opt_get (get result "metadata") "duration") (num 0))
               first10.
Proof.
  intros Ha Hst. destruct part as [p |].
  - destruct (accepted p) eqn:Hacc.
    + unfold answer in Ha. rewrite post_transcribe_accepted in Ha by assumption.
      destruct (Relay.transcribe e _ _) as [w c] eqn:Ht. simpl in Ha.
      destruct (transcribe_200_inv _ _ _ _ _ Ht eq_refl Ha Hst)
        as (f & b & result & error & first10 & Hf & Hb & Hp & He & Hn & Hs & Hbody).
      simplify_eq/=. rewrite lookup_insert_eq in Hb. simplify_eq.
      eexists _, _, _, _. repeat split; eauto.
    + exfalso. unfold accepted in Hacc. unfold answer in Ha. run_relay.
      unfold Relay.fileFilter in Ha.
      destruct (Relay.hasValidMime p || Relay.hasValidExtension p); simpl in Ha, Hacc.
      * apply Z.leb_gt, Z.ltb_lt in Hacc. rewrite Hacc in Ha. simpl in Ha.
        simplify_eq/=.
      * simplify_eq/=.
  - exfalso. unfold answer in Ha. run_relay. simpl in Ha. simplify_eq/=.
Qed.

(** The provider call rejects: the [catch] block removes the file. *)
Lemma transcribe_provider_rejects (f : Relay.file) (w : Relay.world) (b : Relay.blob)
    (reason : value) :
  Relay.storage w !! Relay.path f = Some b ->
  Relay.transcribeFile e b Relay.options = Relay.Rejects reason ->
  Relay.storage (fst (Relay.transcribe e (Some f) w)) = delete (Relay.path f) (Relay.storage w).
Proof.
  intros Hst Hp. run_relay. simpl. rewrite Hst, Hp. simpl.
  rewrite bool_decide_true by (rewrite Hst; eauto). simpl. rewrite Hst. simpl.
  destruct (nullish reason); reflexivity.
Qed.

Lemma substring_length_le (n : nat) (s : string) (k : nat) :
  (String.length (String.substring k n s) <= n)%nat.
Proof.
  revert k n. induction s as [| c s IH]; intros k n.
  - destruct k, n; simpl; lia.
  - destruct k as [| k].
    + destruct n as [| n]; simpl; [lia |]. specialize (IH 0%nat n). lia.
    + simpl. apply IH.
Qed.

Lemma slice0_size (v first : value) (n : nat) :
  slice0 v n = Normal first -> (size first <= n)%nat.
Proof.
  destruct v; simpl; intros H; simplify_eq; simpl.
  - apply substring_length_le.
  - rewrite length_take. lia.
Qed.

(** C2. For every upload that fails the type filter or exceeds the size
    limit, every file on storage after the request was there before it
    (no temporary file persists), the external provider is not invoked,
    and the request is answered with an error. *)
Theorem rejected_upload_leaves_no_file (p : Relay.upload_part) (st : gmap string Relay.blob) :
  rejected p = true ->
  (forall q, left_on_storage e (Some p) st !! q = None \/
             left_on_storage e (Some p) st !! q = st !! q) /\
  Relay.provider_called (fst (Relay.run (Relay.post_transcribe e (Some p)) st)) = false /\
  exists r, answer e (Some p) st = Some r /\ Relay.status r <> 200.
Proof.
  unfold rejected. intros Hrej. run_relay. unfold Relay.fileFilter, Relay.provider_called.
  destruct (Relay.hasValidMime p || Relay.hasValidExtension p) eqn:Hf; simpl in *.
  - rewrite Hrej. simpl. split; [| split].
    + intros q. destruct (decide (q = Relay.uploadDir ++ "/" ++ Relay.storage_filename e p)) as [-> | Hne].
      * left. apply lookup_delete_eq.
      * right. rewrite lookup_delete_ne, lookup_insert_ne by congruence. reflexivity.
    + reflexivity.
    + eexists. split; [reflexivity |]. simpl. lia.
  - split; [| split].
    + intros q. right. reflexivity.
    + reflexivity.
    + eexists. split; [reflexivity |]. simpl. lia.
Qed.

(** C3. For every provider response (an accepted upload, no provider
    error, a result object) the fields [transcript], [confidence] and
    [words] that are absent come back as the empty string, 0 and the
    empty list, and their absence does not fail the request: it is
    answered 200 whenever [words] is absent or is a list. *)
Theorem absent_fields_get_defaults (p : Relay.upload_part) (st : gmap string Relay.blob)
    (result error : value) :
  accepted p = true ->
  Relay.transcribeFile e (Relay.part_data p) Relay.options = Relay.Resolves result error ->
  truthy error = false ->
  nullish result = false ->
  (absent result "words" \/ (exists items, provider_field result "words" = VArr items) ->
   exists r, answer e (Some p) st = Some r /\ Relay.status r = 200) /\
  (forall r, answer e (Some p) st = Some r -> Relay.status r = 200 ->
     (absent result "transcript" -> get (Relay.body r) "transcript" = VStr "") /\
     (absent result "confidence" -> get (Relay.body r) "confidence" = num 0) /\
     (absent result "words" -> get (Relay.body r) "words" = VArr [])).
Proof.
  intros Hacc Hp He Hn.
  assert (Hdef : forall k d, absent result k -> or (provider_field result k) d = d).
  { unfold absent, or. intros k d Hk. destruct (provider_field result k); try discriminate; reflexivity. }
  split.
  - intros Hw.
    assert (exists first10, slice0 (or (provider_field result "words") (VArr [])) 10 = Normal first10)
      as [first10 Hs].
    { destruct Hw as [Hw | [items Hw]].
      - rewrite Hdef by assumption. simpl. eauto.
      - rewrite Hw. simpl. eauto. }
    unfold answer. rewrite post_transcribe_accepted by assumption.
    rewrite (transcribe_success _ _ (Relay.part_data p) result error first10);
      [simpl; eauto | apply lookup_insert_eq | assumption ..].
  - intros r Ha Hst.
    destruct (answer_200_inv _ _ _ Ha Hst)
      as (p' & result' & error' & first10 & Hp' & _ & Hpr & _ & _ & Hs & Hbody).
    simplify_eq. rewrite Hp in Hpr. simplify_eq.
    rewrite Hbody. simpl. repeat split; intros Hk.
    + apply Hdef, Hk.
    + apply Hdef, Hk.
    + rewrite Hdef in Hs by assumption. simpl in Hs. congruence.
Qed.

(** C4. For every successful (200) response, [words] in the body has at
    most 10 entries, however many timed words the provider returned. *)
Theorem response_words_at_most_10 (part : option Relay.upload_part)
    (st : gmap string Relay.blob) (r : Relay.response) :
  answer e part st = Some r ->
  Relay.status r = 200 ->
  (size (get (Relay.body r) "words") <= 10)%nat.
Proof.
  intros Ha Hst.
  destruct (answer_200_inv _ _ _ Ha Hst)
    as (p & result & error & first10 & _ & _ & _ & _ & _ & Hs & Hbody).
  rewrite Hbody. simpl. eapply slice0_size, Hs.
Qed.

(** C6, as the code has it. For every successful (200) response,
    [word_count] is the length of the provider's timed-word list: the
    number of its entries when it is a list, 0 when it is absent. The
    transcript text plays no part in it. *)
Theorem word_count_is_provider_list_length (part : option Relay.upload_part)
    (st : gmap string Relay.blob) (r : Relay.response) :
  answer e part st = Some r ->
  Relay.status r = 200 ->
  exists p result error,
    part = Some p /\
    Relay.transcribeFile e (Relay.part_data p) Relay.options = Relay.Resolves result error /\
    get (Relay.body r) "word_count" = get (or (provider_field result "words") (VArr [])) "length" /\
    (forall items, provider_field result "words" = VArr items ->
       get (Relay.body r) "word_count" = num (Z.of_nat (List.length items))) /\
    (absent result "words" -> get (Relay.body r) "word_count" = num 0).
Proof.
  intros Ha Hst.
  destruct (answer_200_inv _ _ _ Ha Hst)
    as (p & result & error & first10 & Hp & _ & Hpr & _ & _ & Hs & Hbody).
  exists p, result, error. rewrite Hbody. simpl. repeat split; auto.
  - intros items Hw. rewrite Hw. reflexivity.
  - unfold absent, or. intros Hk.
    destruct (provider_field result "words"); try discriminate; reflexivity.
Qed.

End RelayFacts.

(** C1, at a failing request. An accepted upload whose provider call
    reports an error is answered 500 and its temporary file is still on
    storage afterwards: no deletion is attempted on that path. *)
Theorem provider_error_keeps_temporary_file :
  accepted Samples.wav_part = true /\
  answer (Samples.platform Samples.provider_error) (Some Samples.wav_part) ∅ =
    Some {| Relay.status := 500;
            Relay.body := VObj [("error", VStr "Transcription failed");
                                ("message", VStr "Bad Request")] |} /\
  left_on_storage (Samples.platform Samples.provider_error) (Some Samples.wav_part) ∅
    !! "uploads/audio-1719044134324-123456789.wav" = Some Samples.clip /\
  Relay.trace (fst (Relay.run (Relay.post_transcribe (Samples.platform Samples.provider_error)
                                  (Some Samples.wav_part)) ∅)) =
    [Relay.EvProvider Samples.clip Relay.options;
     Relay.EvRespond {| Relay.status := 500;
                        Relay.body := VObj [("error", VStr "Transcription failed");
                                            ("message", VStr "Bad Request")] |}].
Proof. repeat split; vm_compute; reflexivity. Qed.

Lemma rejected_upload_leaves_no_file_witness :
  rejected Samples.big_part = true /\
  exists r, answer (Samples.platform Samples.twelve_words) (Some Samples.big_part) ∅ = Some r /\
            Relay.status r <> 200.
Proof.
  split; [reflexivity |].
  apply (rejected_upload_leaves_no_file (Samples.platform Samples.twelve_words)
           Samples.big_part ∅). reflexivity.
Defined.

Lemma absent_fields_get_defaults_witness :
  exists r, answer (Samples.platform Samples.bare_result) (Some Samples.wav_part) ∅ = Some r /\
            Relay.status r = 200.
Proof.
  apply (absent_fields_get_defaults (Samples.platform Samples.bare_result) Samples.wav_part ∅
           (VObj []) VNull); try reflexivity.
  left. reflexivity.
Defined.

Lemma response_words_at_most_10_witness :
  (size (VArr (map Samples.timed_word ["a";"b";"c";"d";"e";"f";"g";"h";"i";"j"])) <= 10)%nat.
Proof.
  apply (response_words_at_most_10 (Samples.platform Samples.twelve_words)
           (Some Samples.wav_part) ∅
           {| Relay.status := 200;
              Relay.body := Relay.success_body (Samples.platform Samples.twelve_words)
                (VStr "a b c d e f g h i j k l") (VNum (Qmake 19 20)) (num 12)
                (VNum (Qmake 3 1))
                (VArr (map Samples.timed_word ["a";"b";"c";"d";"e";"f";"g";"h";"i";"j"])) |}).
  - vm_compute. reflexivity.
  - reflexivity.
Defined.

(** C5, at a failing request. A part outside the allowed set is turned
    away by the filter, and the request is answered 500 ("Internal
    server error"), which is not a client-error status. *)
Theorem non_audio_upload_is_answered_500 :
  Relay.fileFilter Samples.txt_part =
    inl {| Relay.is_MulterError := false; Relay.code := "";
           Relay.message := "Only audio files are allowed!" |} /\
  answer (Samples.platform Samples.twelve_words) (Some Samples.txt_part) ∅ =
    Some {| Relay.status := 500;
            Relay.body := VObj [("error", VStr "Internal server error");
                                ("message", VStr "Only audio files are allowed!")] |} /\
  client_error 500 = false.
Proof. repeat split; vm_compute; reflexivity. Qed.

(** C6 fails: a provider result with the transcript "hello world" and
    no word list is answered 200 with [word_count] 0. *)
Lemma word_count_differs_from_transcript :
  exists r, answer (Samples.platform Samples.transcript_only) (Some Samples.wav_part) ∅ = Some r /\
            Relay.status r = 200 /\
            get (Relay.body r) "transcript" = VStr "hello world" /\
            get (Relay.body r) "word_count" = num 0 /\
            words_in_transcript "hello world" = 2%nat /\
            ~ word_count_matches_transcript r.
Proof.
  eexists. split; [vm_compute; reflexivity |].
  do 4 (split; [reflexivity |]).
  intros (t & Ht & Hc). vm_compute in Ht. injection Ht as <-.
  vm_compute in Hc. discriminate Hc.
Qed.

Lemma word_count_is_provider_list_length_witness :
  exists p result error,
    Some Samples.wav_part = Some p /\
    Relay.transcribeFile (Samples.platform Samples.twelve_words) (Relay.part_data p) Relay.options
      = Relay.Resolves result error /\
    num 12 = get (or (provider_field result "words") (VArr [])) "length".
Proof.
  destruct (word_count_is_provider_list_length (Samples.platform Samples.twelve_words)
           (Some Samples.wav_part) ∅
           {| Relay.status := 200;
              Relay.body := Relay.success_body (Samples.platform Samples.twelve_words)
                (VStr "a b c d e f g h i j k l") (VNum (Qmake 19 20)) (num 12)
                (VNum (Qmake 3 1))
                (VArr (map Samples.timed_word ["a";"b";"c";"d";"e";"f";"g";"h";"i";"j"])) |})
    as (p & result & error & Hp & Hr & Hc & _).
  - vm_compute. reflexivity.
  - reflexivity.
  - exists p, result, error. repeat split; assumption.
Defined.

(* ===================================================================== *)
(** * Properties of the client *)
(* ===================================================================== *)
Import Pages.

Ltac run_client :=
  cbv beta delta [Client.transcribeAudio Client.transcribeAudio_settle Client.displayTranscription
    Client.startRecording Client.click_recordBtn Client.downloadTranscription
    try_finally try_catch bind modify lift ret throw get_strict] in *.

(** Read a property through the assignments made after it was set. *)
Ltac dom_read :=
  repeat (rewrite lookup_insert_ne by congruence); rewrite lookup_insert_eq.

Section ClientFacts.

(** C9. For every submission whose response indicates failure, the page
    is left as it was apart from the processing indicator and the
    status shown: stored transcription, rendered transcript, metadata
    and button states are unchanged; for a parsed failure body the
    status is "Transcription failed: " followed by its message (or by
    "Transcription failed" when it has none). *)
Theorem failed_submission_keeps_result_state (s : Client.app) (audio : Client.blob)
    (o : Client.fetch_outcome) :
  indicates_failure o = true ->
  let s' := fst (Client.transcribeAudio audio o s) in
  same_but_indicator s s' /\
  (forall result, o = Client.Json result -> nullish result = false ->
     Client.log s' = (Client.log s ++
       [Client.Fetch audio;
        Client.ShowStatus
          (Client.Cat (Client.Lit "Transcription failed: ")
             (Client.text_of (or (get result "message") (VStr "Transcription failed"))))
          "error"])%list).
Proof.
  intros Ho s'. subst s'. unfold same_but_indicator. run_client.
  destruct o as [reason | reason | result]; simpl in *.
  - destruct (nullish reason); simpl; repeat split; try discriminate;
      intros k Hk; rewrite !lookup_insert_ne by congruence; reflexivity.
  - destruct (nullish reason); simpl; repeat split; try discriminate;
      intros k Hk; rewrite !lookup_insert_ne by congruence; reflexivity.
  - destruct (nullish result) eqn:Hn; simpl in *.
    + repeat split; try congruence;
        intros k Hk; rewrite !lookup_insert_ne by congruence; reflexivity.
    + apply negb_true_iff in Ho. rewrite Ho. simpl.
      repeat split; try (intros k Hk; rewrite !lookup_insert_ne by congruence; reflexivity).
      intros result' [= <-] _. rewrite <- app_assoc. reflexivity.
Qed.

(** The drop handler looks at the declared type. *)
Lemma handleFileDrop_audio (file : Client.blob) (rest : list Client.blob) (s : Client.app) :
  startsWith (Client.blob_type file) "audio/" = true ->
  Client.log (Client.handleFileDrop (file :: rest) s) = (Client.log s ++ [Client.Fetch file])%list.
Proof. intros H. unfold Client.handleFileDrop. rewrite H. reflexivity. Qed.

Lemma handleFileDrop_other (file : Client.blob) (rest : list Client.blob) (s : Client.app) :
  startsWith (Client.blob_type file) "audio/" = false ->
  Client.log (Client.handleFileDrop (file :: rest) s) =
    (Client.log s ++ [Client.ShowStatus (Client.Lit "Please upload an audio file") "error"])%list.
Proof. intros H. unfold Client.handleFileDrop. rewrite H. reflexivity. Qed.

(** The picker handler submits whatever file it is given. *)
Lemma handleFileSelect_submits (file : Client.blob) (rest : list Client.blob) (s : Client.app) :
  Client.log (Client.handleFileSelect (file :: rest) s) = (Client.log s ++ [Client.Fetch file])%list.
Proof. reflexivity. Qed.

Lemma fold_ondataavailable_frame (chunks : list Client.blob) (s : Client.app) :
  let s' := fold_left (fun s d => Client.ondataavailable d s) chunks s in
  Client.dom s' = Client.dom s /\ Client.isRecording s' = Client.isRecording s /\
  Client.mediaRecorder s' = Client.mediaRecorder s.
Proof.
  revert s. induction chunks as [| d chunks IH]; intros s; simpl; [auto |].
  destruct (IH (Client.ondataavailable d s)) as (Hd & Hr & Hm).
  rewrite Hd, Hr, Hm. unfold Client.ondataavailable.
  destruct (0 <? Client.blob_size d); auto.
Qed.

(** C8, as the code has it. Once a capture has started (and while its
    chunks arrive) the record button is disabled, so a click on it is
    not delivered: recorder, buffered chunks and recording state, as
    the whole page, stay as they are. *)
Theorem click_record_while_capturing_is_noop (s : Client.app) (stream : nat)
    (chunks : list Client.blob) (m : Client.media) :
  let s1 := fst (Client.startRecording (granted stream) s) in
  let s2 := fold_left (fun s d => Client.ondataavailable d s) chunks s1 in
  Client.isRecording s2 = true /\
  Client.click_recordBtn m s2 = (s2, Normal tt).
Proof.
  intros s1 s2.
  destruct (fold_ondataavailable_frame chunks s1) as (Hd & Hr & _).
  fold s2 in Hd, Hr. split.
  - rewrite Hr. reflexivity.
  - unfold Client.click_recordBtn, Client.disabled. rewrite Hd.
    subst s1. run_client. simpl.
    unfold Client.updateRecordingUI, Client.assign. simpl. dom_read. reflexivity.
Qed.

(** C10. After a successful transcription whose transcript is empty the
    copy, download and clear buttons are enabled, yet copying writes
    nothing to the clipboard and shows no status (the page is
    unchanged); download still writes the file built from the stored
    result (its model, confidence, duration and word count, and the
    empty transcript) and says so; clear still resets the stored
    result, the panel and the buttons. *)
Theorem empty_transcript_copy_is_silent (s s1 : Client.app) (result : value) :
  get result "transcript" = VStr "" ->
  Client.displayTranscription result s = (s1, Normal tt) ->
  Client.currentTranscription s1 = result /\
  Client.disabled "copyBtn" s1 = false /\
  Client.disabled "downloadBtn" s1 = false /\
  Client.disabled "clearBtn" s1 = false /\
  (forall written, Client.copyTranscription written s1 = s1) /\
  (forall generated stamp,
     Client.downloadTranscription generated stamp s1 =
       (Client.showStatus (Client.Lit "Transcription downloaded!") "success"
          (Client.perform
             (Client.Download ("transcription-" ++ stamp ++ ".txt")
                (Client.Cat (Client.Lit ("Speech to Text Transcription" ++ "
Generated: " ++ generated ++ "
Model: "))
                (Client.Cat (Client.text_of (get (get result "metadata") "model"))
                (Client.Cat (Client.Lit "
Confidence: ")
                (Client.Cat (Client.Percent (get result "confidence"))
                (Client.Cat (Client.Lit "
Duration: ")
                (Client.Cat (Client.Fixed1 (get result "duration"))
                (Client.Cat (Client.Lit "
Word Count: ")
                (Client.Cat (Client.text_of (get result "word_count"))
                (Client.Cat (Client.Lit "

Transcript:
")
                            (Client.Lit "")))))))))))
             s1),
        Normal tt)) /\
  (let s2 := Client.clearTranscription s1 in
   Client.currentTranscription s2 = VNull /\
   Client.dom s2 !! ("transcriptionResult", "innerHTML") = Some (Client.DHtml Client.Placeholder) /\
   Client.disabled "copyBtn" s2 = true /\
   Client.disabled "downloadBtn" s2 = true /\
   Client.disabled "clearBtn" s2 = true).
Proof.
  intros Ht Hd. run_client. simpl in Hd.
  destruct (Client.toFixed1 (get result "duration")) as [dur | err] eqn:Hdur;
    simpl in Hd; [| discriminate].
  destruct (nullish (get result "metadata")) eqn:Hmeta; simpl in Hd; [discriminate |].
  injection Hd as <-.
  assert (Htr : truthy result = true).
  { destruct result; simpl in Hmeta; try discriminate; reflexivity. }
  assert (Hfix : dur = Client.Fixed1 (get result "duration")).
  { destruct (get result "duration"); simpl in Hdur; congruence. }
  split; [reflexivity |].
  split; [unfold Client.disabled; simpl; dom_read; reflexivity |].
  split; [unfold Client.disabled; simpl; dom_read; reflexivity |].
  split; [unfold Client.disabled; simpl; dom_read; reflexivity |].
  split.
  { intros written. unfold Client.copyTranscription. simpl. rewrite Ht, Htr. reflexivity. }
  split.
  { intros generated stamp. simpl. rewrite Htr, Hmeta. simpl. rewrite Hdur. simpl.
    unfold Client.download_content. rewrite Ht, Hfix. reflexivity. }
  simpl. unfold Client.disabled. simpl.
  repeat split; dom_read; reflexivity.
Qed.

End ClientFacts.

Lemma failed_submission_keeps_result_state_witness :
  same_but_indicator (showing (success "hello world" 2))
    (fst (Client.transcribeAudio hello_wav
            (Client.Json (failure "Transcription failed" "Bad Request"))
            (showing (success "hello world" 2)))).
Proof.
  apply (failed_submission_keeps_result_state (showing (success "hello world" 2)) hello_wav
           (Client.Json (failure "Transcription failed" "Bad Request"))).
  reflexivity.
Defined.

(** C7, at a failing input. A text file chosen in the file picker is
    submitted, with no status shown; the same file dropped on the upload
    area is turned away with a status and not submitted. *)
Theorem file_picker_submits_non_audio_file :
  startsWith (Client.blob_type notes_txt) "audio/" = false /\
  Client.log (Client.handleFileSelect [notes_txt] fresh) = [Client.Fetch notes_txt] /\
  Client.log (Client.handleFileDrop [notes_txt] fresh) =
    [Client.ShowStatus (Client.Lit "Please upload an audio file") "error"].
Proof. repeat split; reflexivity. Qed.

(** C8 fails on [startRecording] itself: run again while a capture is
    on, with the microphone granted, it installs a new recorder and
    empties the buffer. *)
Lemma second_startRecording_restarts_capture :
  let s1 := Client.ondataavailable (chunk "c1") (fst (Client.startRecording (granted 1) fresh)) in
  let s2 := fst (Client.startRecording (granted 2) s1) in
  Client.isRecording s1 = true /\
  Client.audioChunks s1 = [chunk "c1"] /\ Client.audioChunks s2 = [] /\
  Client.mediaRecorder s1 <> Client.mediaRecorder s2 /\
  s2 <> s1.
Proof.
  repeat split; try reflexivity.
  - vm_compute. discriminate.
  - intros H. apply (f_equal Client.audioChunks) in H. vm_compute in H. discriminate.
Qed.

Lemma empty_transcript_copy_is_silent_witness :
  Client.disabled "copyBtn" (showing (success "" 0)) = false /\
  (forall written, Client.copyTranscription written (showing (success "" 0))
                   = showing (success "" 0)) /\
  Client.log (fst (Client.downloadTranscription "22/06/2025, 08:15:34" "1719044134324"
                     (showing (success "" 0)))) =
    [Client.Download "transcription-1719044134324.txt"
       (Client.Cat (Client.Lit "Speech to Text Transcription
Generated: 22/06/2025, 08:15:34
Model: ")
       (Client.Cat (Client.Lit "nova-2")
       (Client.Cat (Client.Lit "
Confidence: ")
       (Client.Cat (Client.Percent (VNum (Qmake 19 20)))
       (Client.Cat (Client.Lit "
Duration: ")
       (Client.Cat (Client.Fixed1 (VNum (Qmake 3 1)))
       (Client.Cat (Client.Lit "
Word Count: ")
       (Client.Cat (Client.Str (num 0))
       (Client.Cat (Client.Lit "

Transcript:
")
                   (Client.Lit ""))))))))));
     Client.ShowStatus (Client.Lit "Transcription downloaded!") "success"].
Proof.
  destruct (empty_transcript_copy_is_silent fresh (showing (success "" 0)) (success "" 0))
    as (_ & Hc & _ & _ & Hcopy & Hdown & _).
  - reflexivity.
  - vm_compute. reflexivity.
  - split; [assumption |]. split; [assumption |].
    rewrite Hdown. vm_compute. reflexivity.
Defined.

(* ===================================================================== *)
(** * More on the relay *)
(* ===================================================================== *)
Import Views.

Section StringFacts.

Lemma prefix_app (p x : string) : String.prefix p (p ++ x) = true.
Proof.
  induction p as [| c p IH]; simpl; [destruct x; reflexivity |].
  destruct (ascii_dec c c); [assumption | congruence].
Qed.

Lemma length_app_string (a b : string) :
  String.length (a ++ b) = (String.length a + String.length b)%nat.
Proof. induction a as [| c a IH]; simpl; [reflexivity | rewrite IH; reflexivity]. Qed.

Lemma substring_whole (p : string) : String.substring 0 (String.length p) p = p.
Proof. induction p as [| c p IH]; simpl; [reflexivity | rewrite IH; reflexivity]. Qed.

Lemma substring_skip (a p : string) :
  String.substring (String.length a) (String.length p) (a ++ p) = p.
Proof. induction a as [| c a IH]; simpl; [apply substring_whole | apply IH]. Qed.

Lemma endsWith_app (a p : string) : endsWith (a ++ p) p = true.
Proof.
  unfold endsWith. rewrite length_app_string.
  replace (String.length a + String.length p - String.length p)%nat
    with (String.length a) by lia.
  rewrite substring_skip, String.eqb_refl, andb_true_r.
  apply Nat.leb_le. lia.
Qed.

Lemma toLowerCase_app (a b : string) :
  toLowerCase (a ++ b) = toLowerCase a ++ toLowerCase b.
Proof. induction a as [| c a IH]; simpl; [reflexivity | rewrite IH; reflexivity]. Qed.

End StringFacts.

Section RelayMore.
Variable e : Relay.env.

(** The filter accepts every name that ends with an allowed extension
    written in any letter case, whatever type is declared. *)
Theorem fileFilter_extension_any_case (base ext mime : string) (data : Relay.blob) :
  In (toLowerCase ext) Relay.allowedExtensions ->
  Relay.fileFilter {| Relay.part_originalname := base ++ ext;
                      Relay.part_mimetype := mime;
                      Relay.part_data := data |} = inr tt.
Proof.
  intros Hin. apply fileFilter_accepts_iff. right; right.
  exists (toLowerCase ext). split; [assumption |]. simpl.
  rewrite toLowerCase_app. apply endsWith_app.
Qed.

(** The filter accepts every declared type under [audio/] and every
    type that starts with [video/webm], whatever the name is. *)
Theorem fileFilter_audio_type_any_name (name sub : string) (data : Relay.blob) :
  Relay.fileFilter {| Relay.part_originalname := name;
                      Relay.part_mimetype := "audio/" ++ sub;
                      Relay.part_data := data |} = inr tt /\
  Relay.fileFilter {| Relay.part_originalname := name;
                      Relay.part_mimetype := "video/webm" ++ sub;
                      Relay.part_data := data |} = inr tt.
Proof.
  split; apply fileFilter_accepts_iff.
  - left. apply prefix_app.
  - right; left. apply prefix_app.
Qed.

(** A request without a file part is answered 400 "No audio file
    provided"; storage is untouched and the provider is not called. *)
Theorem missing_file_is_answered_400 (st : gmap string Relay.blob) :
  after e None st =
    (let r := {| Relay.status := 400;
                 Relay.body := error_body "No audio file provided"
                                 (VStr "Please upload an audio file") |} in
     {| Relay.storage := st; Relay.trace := [Relay.EvRespond r]; Relay.sent := Some r |}).
Proof. reflexivity. Qed.

(** The temporary path of a part. *)
Local Abbreviation tmp p := (Relay.path (stored_file e p)).

(** A part that passes the filter but exceeds the size limit is
    answered 400 "File too large"; nothing of it stays on storage and
    the provider is not called. *)
Theorem oversized_file_is_answered_400 (p : Relay.upload_part) (st : gmap string Relay.blob) :
  Relay.fileFilter p = inr tt ->
  Relay.fileSize < Relay.blob_size (Relay.part_data p) ->
  after e (Some p) st =
    (let r := {| Relay.status := 400;
                 Relay.body := error_body "File too large"
                                 (VStr "Audio file must be smaller than 10MB") |} in
     {| Relay.storage := delete (tmp p) st;
        Relay.trace := [Relay.EvRespond r]; Relay.sent := Some r |}).
Proof.
  intros Hf Hsz. unfold after. run_relay. cbv beta iota. rewrite Hf. simpl.
  apply Z.ltb_lt in Hsz. rewrite Hsz. simpl. rewrite delete_insert_eq. reflexivity.
Qed.

(** A successful request: the provider is called once with the uploaded
    bytes and the fixed options, then the temporary file is removed,
    then 200 is sent with the first ten words and the full count. *)
Theorem successful_request_effects (p : Relay.upload_part) (st : gmap string Relay.blob)
    (result error : value) (items : list value) :
  accepted p = true ->
  Relay.transcribeFile e (Relay.part_data p) Relay.options = Relay.Resolves result error ->
  truthy error = false ->
  nullish result = false ->
  or (provider_field result "words") (VArr []) = VArr items ->
  after e (Some p) st =
    (let r := {| Relay.status := 200;
                 Relay.body := Relay.success_body e
                   (or (provider_field result "transcript") (VStr ""))
                   (or (provider_field result "confidence") (num 0))
                   (num (Z.of_nat (List.length items)))
                   (or (opt_get (get result "metadata") "duration") (num 0))
                   (VArr (take 10 items)) |} in
     {| Relay.storage := delete (tmp p) st;
        Relay.trace := [Relay.EvProvider (Relay.part_data p) Relay.options;
                        Relay.EvUnlink (tmp p); Relay.EvRespond r];
        Relay.sent := Some r |}).
Proof.
  intros Hacc Hp He Hn Hw. unfold after.
  rewrite post_transcribe_accepted by assumption.
  rewrite (transcribe_success e _ _ (Relay.part_data p) result error (VArr (take 10 items)));
    try assumption.
  - simpl. rewrite Hw, delete_insert_eq. reflexivity.
  - apply lookup_insert_eq.
  - rewrite Hw. reflexivity.
Qed.

(** A provider word list of at most ten entries comes back whole. *)
Theorem short_word_list_is_returned_whole (p : Relay.upload_part) (st : gmap string Relay.blob)
    (result error : value) (items : list value) :
  accepted p = true ->
  Relay.transcribeFile e (Relay.part_data p) Relay.options = Relay.Resolves result error ->
  truthy error = false ->
  nullish result = false ->
  provider_field result "words" = VArr items ->
  (List.length items <= 10)%nat ->
  exists r, answer e (Some p) st = Some r /\ Relay.status r = 200 /\
            get (Relay.body r) "words" = VArr items /\
            get (Relay.body r) "word_count" = num (Z.of_nat (List.length items)).
Proof.
  intros Hacc Hp He Hn Hw Hlen.
  unfold answer. rewrite post_transcribe_accepted by assumption.
  rewrite (transcribe_success e _ _ (Relay.part_data p) result error (VArr (take 10 items)));
    try assumption.
  - simpl. eexists. split; [reflexivity |]. simpl.
    rewrite Hw, take_ge by lia. auto.
  - apply lookup_insert_eq.
  - rewrite Hw. reflexivity.
Qed.

(** The provider call rejects with an error: the temporary file is
    removed and 500 "Internal server error" is sent with the error's
    message (or a stock message when it has none). *)
Theorem provider_rejection_is_answered_500 (p : Relay.upload_part) (st : gmap string Relay.blob)
    (reason : value) :
  accepted p = true ->
  Relay.transcribeFile e (Relay.part_data p) Relay.options = Relay.Rejects reason ->
  nullish reason = false ->
  after e (Some p) st =
    (let r := {| Relay.status := 500;
                 Relay.body := error_body "Internal server error"
                                 (or (get reason "message")
                                     (VStr "An unexpected error occurred")) |} in
     {| Relay.storage := delete (tmp p) st;
        Relay.trace := [Relay.EvProvider (Relay.part_data p) Relay.options;
                        Relay.EvUnlink (tmp p); Relay.EvRespond r];
        Relay.sent := Some r |}).
Proof.
  intros Hacc Hp Hn. unfold after.
  rewrite post_transcribe_accepted by assumption. run_relay. simpl.
  rewrite lookup_insert_eq, Hp. simpl.
  rewrite bool_decide_true by (rewrite lookup_insert_eq; eauto). simpl.
  rewrite lookup_insert_eq, Hn. simpl. rewrite delete_insert_eq. reflexivity.
Qed.

(** The provider resolves with neither an error nor a result: reading
    the result throws, the temporary file is removed and 500 is sent. *)
Theorem missing_result_is_answered_500 (p : Relay.upload_part) (st : gmap string Relay.blob)
    (result error : value) :
  accepted p = true ->
  Relay.transcribeFile e (Relay.part_data p) Relay.options = Relay.Resolves result error ->
  truthy error = false ->
  nullish result = true ->
  exists r message,
    after e (Some p) st =
      {| Relay.storage := delete (tmp p) st;
         Relay.trace := [Relay.EvProvider (Relay.part_data p) Relay.options;
                         Relay.EvUnlink (tmp p); Relay.EvRespond r];
         Relay.sent := Some r |} /\
    r = {| Relay.status := 500;
           Relay.body := error_body "Internal server error" (VStr message) |}.
Proof.
  intros Hacc Hp He Hn. unfold after.
  rewrite post_transcribe_accepted by assumption. run_relay. simpl.
  rewrite lookup_insert_eq, Hp. simpl. rewrite He, Hn. simpl.
  rewrite bool_decide_true by (rewrite lookup_insert_eq; eauto). simpl.
  rewrite lookup_insert_eq. simpl. rewrite delete_insert_eq.
  eexists _, _. split; reflexivity.
Qed.


End RelayMore.

Section RelayInvariants.
Variable e : Relay.env.

Local Abbreviation tmp p := (Relay.path (stored_file e p)).

Lemma after_ending (part : option Relay.upload_part) (st : gmap string Relay.blob) :
  ending e part st (after e part st).
Proof.
  destruct part as [p |].
  - destruct (accepted p) eqn:Hacc.
    + unfold after. rewrite post_transcribe_accepted by assumption.
      run_relay. simpl. rewrite lookup_insert_eq.
      destruct (Relay.transcribeFile e (Relay.part_data p) Relay.options)
        as [result error | reason] eqn:Hp; simpl.
      * destruct (truthy error) eqn:He; simpl.
        { eapply ends_provider_error; eauto. }
        destruct (nullish result) eqn:Hn; simpl.
        { rewrite bool_decide_true by (rewrite lookup_insert_eq; eauto). simpl.
          rewrite lookup_insert_eq. simpl. rewrite delete_insert_eq.
          eapply ends_answered; eauto. }
        rewrite lookup_insert_eq. simpl.
        destruct (slice0 _ 10) as [first10 | err] eqn:Hs; simpl.
        { rewrite delete_insert_eq. eapply ends_answered; eauto. }
        rewrite bool_decide_false by (rewrite lookup_delete_eq; intros [? ?]; discriminate).
        simpl.
        assert (Herr : nullish err = false).
        { destruct (or _ _); simpl in Hs; simplify_eq; reflexivity. }
        rewrite Herr. simpl. rewrite delete_insert_eq. eapply ends_answered; eauto.
      * rewrite bool_decide_true by (rewrite lookup_insert_eq; eauto). simpl.
        rewrite lookup_insert_eq. simpl. rewrite delete_insert_eq.
        destruct (nullish reason) eqn:Hn; simpl.
        { eapply ends_unanswered; eauto. }
        eapply ends_answered; eauto.
    + pose proof Hacc as Hno. unfold after, accepted in Hacc |- *. run_relay.
      unfold Relay.fileFilter.
      destruct (Relay.hasValidMime p || Relay.hasValidExtension p); simpl in Hacc |- *.
      * apply Z.leb_gt, Z.ltb_lt in Hacc. rewrite Hacc. simpl. rewrite delete_insert_eq.
        apply (ends_turned_away e (Some p) st _ "File too large"
                 (VStr "Audio file must be smaller than 10MB")); [| auto].
        intros p' [= <-]. assumption.
      * eapply ends_turned_away_by_type; eauto.
  - apply (ends_turned_away e None st _ "No audio file provided"
             (VStr "Please upload an audio file")); [discriminate | auto].
Qed.

(** Whenever the provider call settles otherwise than by rejecting
    with [undefined] or [null], the request is answered: the route or
    the error middleware sends a response. *)
Theorem answered_unless_nullish_rejection (part : option Relay.upload_part)
    (st : gmap string Relay.blob) :
  (forall p reason, part = Some p ->
     Relay.transcribeFile e (Relay.part_data p) Relay.options = Relay.Rejects reason ->
     nullish reason = false) ->
  exists r, answer e part st = Some r.
Proof.
  intros Hsettles. unfold answer. fold (after e part st).
  destruct (after_ending part st) as [r err msg _ _ | p r msg _ _ _ | p r msg _ _ _
                                      | p r _ _ _ | p reason Hp _ Hrej Hn]; simpl; eauto.
  rewrite (Hsettles p reason Hp Hrej) in Hn. discriminate.
Qed.

(** The provider is called exactly once for a part that passes the
    filter and the size limit, with the uploaded bytes and the fixed
    options, and not at all otherwise. *)
Theorem provider_called_once_iff_accepted (part : option Relay.upload_part)
    (st : gmap string Relay.blob) :
  provider_calls (after e part st) =
    match part with
    | Some p => if accepted p then [(Relay.part_data p, Relay.options)] else []
    | None => []
    end.
Proof.
  destruct (after_ending part st) as [r err msg Hno _ | p r msg -> Hno _ | p r msg -> Hacc _
                                      | p r -> Hacc _ | p reason -> Hacc _ _];
    unfold provider_calls; simpl; rewrite ?Hacc, ?Hno; try reflexivity.
  destruct part as [p |]; [rewrite (Hno p eq_refl) |]; reflexivity.
Qed.

(** A request touches no file but its own temporary one. *)
Theorem other_files_are_untouched (part : option Relay.upload_part)
    (st : gmap string Relay.blob) (q : string) :
  (forall p, part = Some p -> q <> tmp p) ->
  Relay.storage (after e part st) !! q = st !! q.
Proof.
  intros Hq.
  destruct (after_ending part st) as [r err msg _ _ | p r msg -> _ _ | p r msg -> _ _
                                      | p r -> _ _ | p reason -> _ _ _]; simpl.
  - destruct part as [p |]; [| reflexivity].
    apply lookup_delete_ne. intros Heq. exact (Hq p eq_refl (eq_sym Heq)).
  - reflexivity.
  - apply lookup_insert_ne. intros Heq. exact (Hq p eq_refl (eq_sym Heq)).
  - apply lookup_delete_ne. intros Heq. exact (Hq p eq_refl (eq_sym Heq)).
  - apply lookup_delete_ne. intros Heq. exact (Hq p eq_refl (eq_sym Heq)).
Qed.

(** At most one response is sent per request, and it is the last thing
    the request does. *)
Theorem one_response_at_the_end (part : option Relay.upload_part)
    (st : gmap string Relay.blob) :
  responses (after e part st) = option_list (answer e part st) /\
  forall r, answer e part st = Some r ->
            exists before, Relay.trace (after e part st) = (before ++ [Relay.EvRespond r])%list.
Proof.
  unfold answer. fold (after e part st).
  destruct (after_ending part st); unfold responses; simpl; (split; [reflexivity |]).
  - intros ? [= <-]. exists []. reflexivity.
  - intros ? [= <-]. exists []. reflexivity.
  - intros ? [= <-]. eexists [_]. reflexivity.
  - intros ? [= <-]. eexists [_; _]. reflexivity.
  - discriminate.
Qed.

(** The relay only ever answers 200 with [success: true], or 400 or 500
    with an [{ error, message }] body that has no [success]. *)
Theorem answer_is_success_or_error_body (part : option Relay.upload_part)
    (st : gmap string Relay.blob) (r : Relay.response) :
  answer e part st = Some r ->
  (Relay.status r = 200 /\ get (Relay.body r) "success" = VBool true) \/
  ((Relay.status r = 400 \/ Relay.status r = 500) /\
   exists err msg, Relay.body r = error_body err msg).
Proof.
  unfold answer. fold (after e part st).
  destruct (after_ending part st) as [r' err msg _ [-> | ->] | p r' msg -> _ ->
                                      | p r' msg -> _ -> | p r' -> _ [H | [msg ->]]
                                      | p reason -> _ _ _]; simpl;
    intros [= <-]; simpl; eauto 10.
Qed.

End RelayInvariants.

(* ===================================================================== *)
(** * More on the client *)
(* ===================================================================== *)

Section ClientMore.

(** ** Recording *)

Lemma fold_ondataavailable_chunks (chunks : list Client.blob) (s : Client.app) :
  Client.audioChunks (fold_left (fun s d => Client.ondataavailable d s) chunks s) =
    (Client.audioChunks s ++ kept chunks)%list.
Proof.
  revert s. induction chunks as [| d chunks IH]; intros s; simpl.
  - rewrite app_nil_r. reflexivity.
  - rewrite IH. unfold kept, Client.ondataavailable.
    rewrite filter_cons. destruct (decide (0 < Client.blob_size d)) as [Hd | Hd].
    + apply Z.ltb_lt in Hd. rewrite Hd. simpl. rewrite <- app_assoc. reflexivity.
    + apply Z.ltb_nlt in Hd. rewrite Hd. reflexivity.
Qed.

Lemma fold_ondataavailable_rest (chunks : list Client.blob) (s : Client.app) :
  let s' := fold_left (fun s d => Client.ondataavailable d s) chunks s in
  s' = Client.set_audioChunks (Client.audioChunks s') s.
Proof.
  revert s. induction chunks as [| d chunks IH]; intros s; simpl.
  - destruct s; reflexivity.
  - rewrite IH at 1. unfold Client.ondataavailable.
    destruct (0 <? Client.blob_size d); reflexivity.
Qed.

Lemma fold_ondataavailable_eq (chunks : list Client.blob) (s : Client.app) :
  fold_left (fun s d => Client.ondataavailable d s) chunks s =
    Client.set_audioChunks (Client.audioChunks s ++ kept chunks) s.
Proof.
  rewrite fold_ondataavailable_rest, fold_ondataavailable_chunks. reflexivity.
Qed.

(** Chunks are buffered in arrival order, and empty ones are dropped;
    nothing else of the page changes. *)
Theorem chunks_are_buffered_in_order (chunks : list Client.blob) (s : Client.app) :
  let s' := fold_left (fun s d => Client.ondataavailable d s) chunks s in
  s' = Client.set_audioChunks (Client.audioChunks s ++ kept chunks) s /\
  Forall (fun c => 0 < Client.blob_size c) (kept chunks).
Proof.
  split; [apply fold_ondataavailable_eq |].
  unfold kept. apply Forall_forall. intros c Hc.
  apply list_elem_of_filter in Hc. tauto.
Qed.

(** One recording, from start to the recorder's [stop] event: whatever
    the page was, exactly one request leaves, carrying one
    [audio/webm] blob made of the non-empty chunks in order (also those
    flushed after the stop); the audio context is closed, the tracks
    are stopped and the buttons are back to "ready". *)
Theorem recording_cycle_submits_once (s : Client.app) (stream : nat)
    (chunks flushed : list Client.blob) :
  let s1 := fst (Client.startRecording (granted stream) s) in
  let s2 := fold_left (fun s d => Client.ondataavailable d s) chunks s1 in
  let s3 := Client.stopRecording s2 in
  let s4 := fold_left (fun s d => Client.ondataavailable d s) flushed s3 in
  let s5 := Client.onstop stream s4 in
  Client.log s5 =
    (Client.log s ++
     [Client.ShowStatus (Client.Lit "Recording started") "success";
      Client.CloseAudioContext stream;
      Client.ShowStatus (Client.Lit "Recording stopped") "success";
      Client.Fetch (Client.new_Blob (kept (chunks ++ flushed)) "audio/webm");
      Client.StopTracks stream])%list /\
  Client.isRecording s5 = false /\
  Client.audioContext s5 = None /\
  Client.disabled "recordBtn" s5 = false /\
  Client.disabled "stopBtn" s5 = true /\
  Client.currentTranscription s5 = Client.currentTranscription s.
Proof.
  intros s1 s2 s3 s4 s5. subst s5 s4 s3 s2 s1.
  rewrite (fold_ondataavailable_eq chunks).
  run_client. simpl. unfold Client.stopRecording. simpl.
  rewrite (fold_ondataavailable_eq flushed). simpl.
  unfold kept. rewrite filter_app. fold (kept chunks) (kept flushed).
  unfold Client.onstop, Client.disabled. simpl.
  repeat split.
  - rewrite <- !app_assoc. reflexivity.
  - dom_read. reflexivity.
  - dom_read. reflexivity.
Qed.

Lemma stopRecording_idle (s : Client.app) :
  Client.mediaRecorder s = None \/ Client.isRecording s = false ->
  Client.stopRecording s = s.
Proof.
  unfold Client.stopRecording. intros [H | H]; rewrite H; [reflexivity |].
  destruct (Client.mediaRecorder s); reflexivity.
Qed.

(** A second stop changes nothing more. *)
Theorem stopRecording_idempotent (s : Client.app) :
  Client.stopRecording (Client.stopRecording s) = Client.stopRecording s.
Proof.
  apply stopRecording_idle. unfold Client.stopRecording.
  destruct (Client.mediaRecorder s) eqn:Hr; [| auto].
  destruct (Client.isRecording s) eqn:Hi; [| auto].
  right. unfold Client.stopAudioVisualization. simpl.
  destruct (Client.audioContext s); reflexivity.
Qed.

(** A start that fails, because the microphone is refused or because
    the recorder cannot be built, changes nothing of the page and
    reports "Failed to start recording: " with the error's message. *)
Theorem failed_start_only_reports (s : Client.app) (m : Client.media) (reason : value) :
  Client.getUserMedia m = Throw reason \/
  (exists stream, Client.getUserMedia m = Normal stream) /\
    Client.MediaRecorder_error m = Some reason ->
  nullish reason = false ->
  Client.startRecording m s =
    (Client.showStatus
       (Client.Cat (Client.Lit "Failed to start recording: ")
                   (Client.text_of (get reason "message"))) "error" s,
     Normal tt).
Proof.
  intros [Hg | [[stream Hg] Hm]] Hn; run_client; rewrite Hg; simpl;
    rewrite ?Hm; simpl; rewrite Hn; reflexivity.
Qed.

(** ** Start-up *)

(** When the microphone is refused at start-up the record button is
    disabled, so a click on it does nothing, while choosing a file
    still submits it. *)
Theorem denied_microphone_leaves_upload (s : Client.app) (reason : value) (m : Client.media)
    (file : Client.blob) (rest : list Client.blob) :
  let s1 := fst (Client.checkMicrophonePermission (Throw reason) s) in
  Client.log s1 =
    (Client.log s ++
     [Client.ShowStatus
        (Client.Lit "Microphone access denied. File upload is still available.") "error"])%list /\
  Client.click_recordBtn m s1 = (s1, Normal tt) /\
  Client.log (Client.handleFileSelect (file :: rest) s1) = (Client.log s1 ++ [Client.Fetch file])%list.
Proof.
  intros s1. subst s1. unfold Client.checkMicrophonePermission. run_client. simpl.
  repeat split. unfold Client.click_recordBtn, Client.disabled. simpl.
  rewrite lookup_insert_eq. reflexivity.
Qed.

(** When the microphone is granted at start-up the probe stream is
    released at once and nothing else of the page changes. *)
Theorem granted_microphone_is_released (s : Client.app) (stream : nat) :
  only_effects s (fst (Client.checkMicrophonePermission (Normal stream) s))
    [Client.StopTracks stream;
     Client.ShowStatus (Client.Lit "Microphone access granted") "success"].
Proof.
  unfold only_effects, Client.checkMicrophonePermission. run_client. simpl.
  unfold Client.showStatus, Client.perform. simpl. rewrite <- app_assoc. reflexivity.
Qed.

(** ** Results *)

(** The processing indicator is shown when a request leaves and hidden
    when it settles, however it settles. *)
Theorem processing_indicator_brackets_request (s : Client.app) (audio : Client.blob)
    (o : Client.fetch_outcome) :
  Client.dom (Client.transcribeAudio_send audio s) !! ("processingIndicator", "style.display")
    = Some (Client.DStr "block") /\
  Client.dom (fst (Client.transcribeAudio_settle o s)) !! ("processingIndicator", "style.display")
    = Some (Client.DStr "none").
Proof.
  split.
  - simpl. apply lookup_insert_eq.
  - unfold Client.transcribeAudio_settle, try_finally.
    destruct (try_catch _ _ s) as [s' c]. simpl. apply lookup_insert_eq.
Qed.

(** [displayTranscription] runs to its end exactly on renderable bodies. *)
Lemma displayTranscription_completes (result : value) (s : Client.app) :
  renderable result = true ->
  exists duration,
    get result "duration" = VNum duration /\
    nullish (get result "metadata") = false /\
    Client.displayTranscription result s =
      (Client.set_currentTranscription result
        (Client.assign "clearBtn" "disabled" (Client.DBool false)
          (Client.assign "downloadBtn" "disabled" (Client.DBool false)
            (Client.assign "copyBtn" "disabled" (Client.DBool false)
              (Client.assign "transcriptionMeta" "style.display" (Client.DStr "block")
                (Client.assign "modelUsed" "textContent"
                   (Client.DText (Client.text_of (get (get result "metadata") "model")))
                  (Client.assign "audioDuration" "textContent"
                     (Client.DText (Client.Fixed1 (VNum duration)))
                    (Client.assign "wordCount" "textContent"
                       (Client.DText (Client.text_of (get result "word_count")))
                      (Client.assign "confidenceScore" "textContent"
                         (Client.DText (Client.Percent (get result "confidence")))
                        (Client.assign "transcriptionResult" "innerHTML"
                           (Client.DHtml (Client.TranscriptionContent
                              (Client.text_of (or (get result "transcript")
                                 (VStr "No speech detected in the audio.")))))
                           s))))))))),
       Normal tt).
Proof.
  unfold renderable. intros Hr.
  destruct (get result "duration") as [| | | duration | | |] eqn:Hd; try discriminate.
  apply negb_true_iff in Hr. exists duration. repeat split; [assumption |].
  run_client. simpl. rewrite Hd. simpl. rewrite Hr. reflexivity.
Qed.

Lemma displayTranscription_throws (result : value) (s : Client.app) :
  renderable result = false ->
  exists s1 message,
    Client.displayTranscription result s = (s1, Throw (TypeError message)) /\
    same_stored_result s s1 /\
    Client.log s1 = Client.log s /\
    Client.dom s1 !! ("transcriptionResult", "innerHTML") =
      Some (Client.DHtml (Client.TranscriptionContent
              (Client.text_of (or (get result "transcript")
                                  (VStr "No speech detected in the audio."))))).
Proof.
  unfold renderable, same_stored_result, Client.disabled. intros Hr. run_client. simpl.
  destruct (get result "duration") eqn:Hd; simpl;
    try (eexists _, _; repeat split; try reflexivity; simpl;
         repeat (rewrite lookup_insert_ne by congruence); try reflexivity;
         apply lookup_insert_eq).
  apply negb_false_iff in Hr. rewrite Hr. simpl.
  eexists _, _; repeat split; try reflexivity; simpl;
    repeat (rewrite lookup_insert_ne by congruence); try reflexivity;
    apply lookup_insert_eq.
Qed.

(** A renderable success body settles as [displayTranscription], the
    success status and the hidden indicator, in this order. *)
Lemma settle_renderable (s : Client.app) (result : value) :
  truthy (get result "success") = true ->
  renderable result = true ->
  Client.transcribeAudio_settle (Client.Json result) s =
    (Client.showProcessing false
       (Client.showStatus (Client.Lit "Transcription completed successfully!") "success"
          (fst (Client.displayTranscription result s))),
     Normal tt).
Proof.
  intros Hs Hr.
  destruct (displayTranscription_completes result s Hr) as (duration & Hd & Hm & Hdisp).
  assert (Hn : nullish result = false).
  { destruct result; simpl in Hs; try discriminate; reflexivity. }
  unfold Client.transcribeAudio_settle, try_finally, try_catch, bind, lift, get_strict, modify.
  rewrite Hn, Hs, Hdisp. reflexivity.
Qed.

(** A success body that can be rendered replaces whatever was stored:
    it becomes the stored result, the three buttons are enabled, the
    metadata is shown and success is reported. *)
Theorem rendered_success_replaces_result (s : Client.app) (result : value) :
  truthy (get result "success") = true ->
  renderable result = true ->
  let s' := fst (Client.transcribeAudio_settle (Client.Json result) s) in
  snd (Client.transcribeAudio_settle (Client.Json result) s) = Normal tt /\
  Client.currentTranscription s' = result /\
  Client.disabled "copyBtn" s' = false /\
  Client.disabled "downloadBtn" s' = false /\
  Client.disabled "clearBtn" s' = false /\
  Client.dom s' !! ("transcriptionMeta", "style.display") = Some (Client.DStr "block") /\
  Client.dom s' !! ("modelUsed", "textContent") =
    Some (Client.DText (Client.text_of (get (get result "metadata") "model"))) /\
  Client.dom s' !! ("transcriptionResult", "innerHTML") =
    Some (Client.DHtml (Client.TranscriptionContent
            (Client.text_of (or (get result "transcript")
                                (VStr "No speech detected in the audio."))))) /\
  Client.log s' =
    (Client.log s ++
     [Client.ShowStatus (Client.Lit "Transcription completed successfully!") "success"])%list.
Proof.
  intros Hs Hr s'. subst s'. rewrite (settle_renderable s result Hs Hr).
  destruct (displayTranscription_completes result s Hr) as (duration & Hd & Hm & Hdisp).
  rewrite Hdisp. unfold Client.disabled. simpl.
  repeat split; dom_read; reflexivity.
Qed.

(** A success body that cannot be rendered (its duration is not a
    number, or it has no metadata) is reported as a failure: the stored
    result, the buttons and the metadata panel stay as they were, but
    the transcript panel has already been overwritten. *)
Theorem unrenderable_success_is_reported (s : Client.app) (result : value) :
  truthy (get result "success") = true ->
  renderable result = false ->
  let s' := fst (Client.transcribeAudio_settle (Client.Json result) s) in
  snd (Client.transcribeAudio_settle (Client.Json result) s) = Normal tt /\
  same_stored_result s s' /\
  (exists message,
     Client.log s' =
       (Client.log s ++
        [Client.ShowStatus (Client.Cat (Client.Lit "Transcription failed: ")
                                       (Client.Lit message)) "error"])%list) /\
  Client.dom s' !! ("transcriptionResult", "innerHTML") =
    Some (Client.DHtml (Client.TranscriptionContent
            (Client.text_of (or (get result "transcript")
                                (VStr "No speech detected in the audio."))))).
Proof.
  intros Hs Hr s'. subst s'.
  destruct (displayTranscription_throws result s Hr)
    as (s1 & message & Hdisp & (Hc & Hb1 & Hb2 & Hb3 & Hmeta) & Hlog & Hhtml).
  assert (Hn : nullish result = false).
  { destruct result; simpl in Hs; try discriminate; reflexivity. }
  unfold Client.transcribeAudio_settle, try_finally, try_catch, bind, lift, get_strict, modify.
  rewrite Hn, Hs, Hdisp. unfold same_stored_result, Client.disabled in *. simpl.
  repeat split; try assumption.
  - rewrite lookup_insert_ne by congruence. assumption.
  - rewrite lookup_insert_ne by congruence. assumption.
  - rewrite lookup_insert_ne by congruence. assumption.
  - rewrite lookup_insert_ne by congruence. assumption.
  - exists message. rewrite Hlog. reflexivity.
  - rewrite lookup_insert_ne by congruence. assumption.
Qed.

(** What a settled request can leave as stored result: the old one, or
    a renderable body. *)
Lemma settle_stored (o : Client.fetch_outcome) (s : Client.app) :
  let c := Client.currentTranscription (fst (Client.transcribeAudio_settle o s)) in
  c = Client.currentTranscription s \/
  (renderable c = true /\ truthy c = true).
Proof.
  destruct o as [reason | reason | result]; simpl.
  - left. run_client. simpl. destruct (nullish reason); reflexivity.
  - left. run_client. simpl. destruct (nullish reason); reflexivity.
  - destruct (nullish result) eqn:Hn.
    { left. run_client. simpl. rewrite Hn. reflexivity. }
    destruct (truthy (get result "success")) eqn:Hs.
    + destruct (renderable result) eqn:Hr.
      * right.
        destruct (displayTranscription_completes result s Hr) as (duration & Hd & Hm & Hdisp).
        unfold Client.transcribeAudio_settle, try_finally, try_catch, bind, lift, get_strict, modify.
        rewrite Hn, Hs, Hdisp. simpl. split; [assumption |].
        destruct result; simpl in Hs; try discriminate; reflexivity.
      * left.
        destruct (displayTranscription_throws result s Hr)
          as (s1 & message & Hdisp & (Hc & _) & _).
        unfold Client.transcribeAudio_settle, try_finally, try_catch, bind, lift, get_strict, modify.
        rewrite Hn, Hs, Hdisp. simpl. assumption.
    + left. run_client. simpl. rewrite Hn. simpl. rewrite Hs. reflexivity.
Qed.

(** Whatever responses arrive, the stored result stays renderable (or
    empty); on such a page [downloadTranscription] never throws. With
    nothing stored it does nothing; otherwise it writes the file built
    from the stored result (model, confidence, duration, word count and
    transcript), says so, and changes nothing else. *)
Theorem stored_result_is_always_downloadable (s : Client.app) (os : list Client.fetch_outcome)
    (generated stamp : string) :
  stored_ok s ->
  let s' := fold_left (fun s o => fst (Client.transcribeAudio_settle o s)) os s in
  let c := Client.currentTranscription s' in
  stored_ok s' /\
  Client.downloadTranscription generated stamp s' =
    (if truthy c then
       {| Client.mediaRecorder := Client.mediaRecorder s';
          Client.audioChunks := Client.audioChunks s';
          Client.isRecording := Client.isRecording s';
          Client.audioContext := Client.audioContext s';
          Client.currentTranscription := c;
          Client.dom := Client.dom s';
          Client.log :=
            (Client.log s' ++
            [Client.Download ("transcription-" ++ stamp ++ ".txt")
               (Client.Cat (Client.Lit ("Speech to Text Transcription" ++ "
Generated: " ++ generated ++ "
Model: "))
               (Client.Cat (Client.text_of (get (get c "metadata") "model"))
               (Client.Cat (Client.Lit "
Confidence: ")
               (Client.Cat (Client.Percent (get c "confidence"))
               (Client.Cat (Client.Lit "
Duration: ")
               (Client.Cat (Client.Fixed1 (get c "duration"))
               (Client.Cat (Client.Lit "
Word Count: ")
               (Client.Cat (Client.text_of (get c "word_count"))
               (Client.Cat (Client.Lit "

Transcript:
")
                           (Client.text_of (get c "transcript")))))))))));
             Client.ShowStatus (Client.Lit "Transcription downloaded!") "success"])%list |}
     else s',
     Normal tt).
Proof.
  intros Hok s'. subst s'.
  assert (Hinv : stored_ok (fold_left (fun s o => fst (Client.transcribeAudio_settle o s)) os s)).
  { revert s Hok. induction os as [| o os IH]; intros s Hok; simpl; [assumption |].
    apply IH. destruct (settle_stored o s) as [Heq | [Hr Ht]].
    - unfold stored_ok. rewrite Heq. assumption.
    - right. assumption. }
  split; [assumption |].
  set (s' := fold_left _ os s) in *. clearbody s'.
  unfold Client.downloadTranscription. cbv zeta.
  destruct (truthy (Client.currentTranscription s')) eqn:Ht; [| reflexivity].
  destruct Hinv as [Hf | Hr]; [congruence |].
  unfold renderable in Hr.
  destruct (get (Client.currentTranscription s') "duration") eqn:Hd; try discriminate.
  apply negb_true_iff in Hr.
  unfold bind, lift, get_strict, modify. rewrite Hr. simpl.
  unfold Client.showStatus, Client.perform, Client.download_content. simpl.
  rewrite <- app_assoc. reflexivity.
Qed.

(** Copying a stored result with a transcript writes exactly that
    transcript to the clipboard, reports how the write went, and
    changes nothing else. *)
Theorem copy_writes_the_transcript (s : Client.app) (t : string) (written : bool) :
  truthy (Client.currentTranscription s) = true ->
  get (Client.currentTranscription s) "transcript" = VStr t ->
  t <> "" ->
  only_effects s (Client.copyTranscription written s)
    [Client.ClipboardWrite (Client.Lit t);
     if written
     then Client.ShowStatus (Client.Lit "Transcription copied to clipboard!") "success"
     else Client.ShowStatus (Client.Lit "Failed to copy transcription") "error"].
Proof.
  intros Hc Ht Hne. unfold only_effects, Client.copyTranscription.
  rewrite Hc, Ht. simpl.
  apply String.eqb_neq in Hne. rewrite Hne. simpl.
  destruct written; unfold Client.showStatus, Client.perform; simpl;
    rewrite <- app_assoc; reflexivity.
Qed.

(** Clearing resets the result from any page: placeholder shown,
    metadata and audio preview hidden, the three buttons disabled,
    nothing stored (so copy and download do nothing afterwards); the
    capture state is not touched. *)
Theorem clear_resets_result (s : Client.app) :
  let s' := Client.clearTranscription s in
  Client.currentTranscription s' = VNull /\
  Client.dom s' !! ("transcriptionResult", "innerHTML") = Some (Client.DHtml Client.Placeholder) /\
  Client.dom s' !! ("transcriptionMeta", "style.display") = Some (Client.DStr "none") /\
  Client.dom s' !! ("audioPreview", "style.display") = Some (Client.DStr "none") /\
  Client.disabled "copyBtn" s' = true /\
  Client.disabled "downloadBtn" s' = true /\
  Client.disabled "clearBtn" s' = true /\
  (forall written, Client.copyTranscription written s' = s') /\
  (forall generated stamp, Client.downloadTranscription generated stamp s' = (s', Normal tt)) /\
  Client.log s' = (Client.log s ++
                   [Client.ShowStatus (Client.Lit "Transcription cleared") "success"])%list /\
  Client.mediaRecorder s' = Client.mediaRecorder s /\
  Client.audioChunks s' = Client.audioChunks s /\
  Client.isRecording s' = Client.isRecording s.
Proof.
  intros s'. subst s'. unfold Client.disabled. simpl.
  repeat split; try (dom_read; reflexivity).
Qed.

(** A drop always takes the highlight off the upload area; a drop that
    carries no file does nothing else, and of several files only the
    first is looked at. *)
Theorem drop_clears_highlight (files : list Client.blob) (s : Client.app) :
  Client.dom (Client.handleFileDrop files (Client.handleDragOver s))
    !! ("uploadArea", "class.dragover") = Some (Client.DBool false) /\
  Client.log (Client.handleFileDrop [] s) = Client.log s /\
  (forall file rest, Client.handleFileDrop (file :: rest) s = Client.handleFileDrop [file] s).
Proof.
  split; [| split; reflexivity].
  unfold Client.handleFileDrop.
  destruct files as [| file rest]; [apply lookup_insert_eq |].
  destruct (startsWith (Client.blob_type file) "audio/"); simpl; dom_read; reflexivity.
Qed.

End ClientMore.

(* ===================================================================== *)
(** * Relay and client together *)
(* ===================================================================== *)
Section EndToEnd.
Variable e : Relay.env.

(** Every 200 body of the relay whose duration is a number is rendered
    by the client to the end: it becomes the stored result, the model
    shown is the relay's fixed one, and success is reported. *)
Theorem relay_success_is_rendered (part : option Relay.upload_part)
    (st : gmap string Relay.blob) (r : Relay.response) (q : Q) (s : Client.app) :
  answer e part st = Some r ->
  Relay.status r = 200 ->
  get (Relay.body r) "duration" = VNum q ->
  let s' := fst (Client.transcribeAudio_settle (Client.Json (Relay.body r)) s) in
  snd (Client.transcribeAudio_settle (Client.Json (Relay.body r)) s) = Normal tt /\
  Client.currentTranscription s' = Relay.body r /\
  Client.dom s' !! ("modelUsed", "textContent") = Some (Client.DText (Client.Lit "nova-2")) /\
  Client.disabled "copyBtn" s' = false /\
  Client.log s' =
    (Client.log s ++
     [Client.ShowStatus (Client.Lit "Transcription completed successfully!") "success"])%list.
Proof.
  intros Ha Hst Hd s'. subst s'.
  destruct (answer_200_inv _ _ _ _ Ha Hst)
    as (p & result & error & first10 & _ & _ & _ & _ & _ & _ & Hbody).
  assert (Hs : truthy (get (Relay.body r) "success") = true) by (rewrite Hbody; reflexivity).
  assert (Hm : get (get (Relay.body r) "metadata") "model" = VStr "nova-2")
    by (rewrite Hbody; reflexivity).
  assert (Hr : renderable (Relay.body r) = true).
  { unfold renderable. rewrite Hd, Hbody. reflexivity. }
  rewrite (settle_renderable s (Relay.body r) Hs Hr).
  destruct (displayTranscription_completes (Relay.body r) s Hr) as (duration & _ & _ & Hdisp).
  rewrite Hdisp. unfold Client.disabled. simpl. rewrite Hm.
  repeat split; dom_read; reflexivity.
Qed.

(** Every error answer of the relay (400 or 500) is shown by the client
    as "Transcription failed: " with the relay's message, and leaves
    the page as it was apart from the processing indicator. *)
Theorem relay_error_is_reported (part : option Relay.upload_part)
    (st : gmap string Relay.blob) (r : Relay.response) (s : Client.app) :
  answer e part st = Some r ->
  Relay.status r <> 200 ->
  let s' := fst (Client.transcribeAudio_settle (Client.Json (Relay.body r)) s) in
  same_but_indicator s s' /\
  Client.log s' =
    (Client.log s ++
     [Client.ShowStatus
        (Client.Cat (Client.Lit "Transcription failed: ")
           (Client.text_of (or (get (Relay.body r) "message") (VStr "Transcription failed"))))
        "error"])%list.
Proof.
  intros Ha Hst s'. subst s'. unfold answer in Ha. fold (after e part st) in Ha.
  assert (Hb : exists err msg, Relay.body r = error_body err msg).
  { destruct (after_ending e part st) as [r' err msg _ [-> | ->] | p r' msg -> _ ->
                                          | p r' msg -> _ -> | p r' -> _ [[H _] | [msg ->]]
                                          | p reason -> _ _ _];
      simpl in Ha; simplify_eq; simpl; eauto. }
  destruct Hb as (err & msg & ->).
  unfold same_but_indicator. run_client. simpl.
  repeat split; intros k Hk; apply lookup_insert_ne; congruence.
Qed.

End EndToEnd.

(* ===================================================================== *)
(** * The further properties at sample inputs *)
(* ===================================================================== *)

Lemma fileFilter_extension_any_case_witness :
  Relay.fileFilter {| Relay.part_originalname := "TAKE-1" ++ ".WAV";
                      Relay.part_mimetype := "application/octet-stream";
                      Relay.part_data := Samples.clip |} = inr tt.
Proof.
  apply (fileFilter_extension_any_case "TAKE-1" ".WAV" "application/octet-stream" Samples.clip).
  simpl. auto.
Defined.

Lemma oversized_file_is_answered_400_witness :
  Relay.sent (after (Samples.platform Samples.twelve_words) (Some Samples.big_part) ∅) =
    Some {| Relay.status := 400;
            Relay.body := error_body "File too large"
                            (VStr "Audio file must be smaller than 10MB") |}.
Proof.
  rewrite (oversized_file_is_answered_400 (Samples.platform Samples.twelve_words)
             Samples.big_part ∅); [reflexivity | reflexivity | vm_compute; reflexivity].
Defined.

Lemma successful_request_effects_witness :
  Relay.storage (after (Samples.platform Samples.twelve_words) (Some Samples.wav_part) ∅) =
    delete "uploads/audio-1719044134324-123456789.wav" ∅.
Proof.
  rewrite (successful_request_effects (Samples.platform Samples.twelve_words)
             Samples.wav_part ∅ (Cases.result_of Samples.twelve_words) VNull
             (map Samples.timed_word ["a";"b";"c";"d";"e";"f";"g";"h";"i";"j";"k";"l"]));
    reflexivity.
Defined.

Lemma short_word_list_is_returned_whole_witness :
  exists r, answer (Samples.platform Cases.two_words) (Some Samples.wav_part) ∅ = Some r /\
            Relay.status r = 200 /\
            get (Relay.body r) "words" =
              VArr [Samples.timed_word "hello"; Samples.timed_word "world"] /\
            get (Relay.body r) "word_count" = num 2.
Proof.
  apply (short_word_list_is_returned_whole (Samples.platform Cases.two_words)
           Samples.wav_part ∅ (Cases.result_of Cases.two_words) VNull
           [Samples.timed_word "hello"; Samples.timed_word "world"]);
    try reflexivity. simpl. lia.
Defined.

Lemma provider_rejection_is_answered_500_witness :
  Relay.sent (after (Samples.platform Cases.timeout) (Some Samples.wav_part) ∅) =
    Some {| Relay.status := 500;
            Relay.body := error_body "Internal server error" (VStr "Request timed out") |}.
Proof.
  rewrite (provider_rejection_is_answered_500 (Samples.platform Cases.timeout)
             Samples.wav_part ∅ (Error (VStr "Request timed out"))); reflexivity.
Defined.

Lemma missing_result_is_answered_500_witness :
  exists r message,
    after (Samples.platform Cases.nothing) (Some Samples.wav_part) ∅ =
      {| Relay.storage := delete (Relay.path (stored_file (Samples.platform Cases.nothing)
                                                 Samples.wav_part)) ∅;
         Relay.trace := [Relay.EvProvider Samples.clip Relay.options;
                         Relay.EvUnlink (Relay.path (stored_file (Samples.platform Cases.nothing)
                                                       Samples.wav_part));
                         Relay.EvRespond r];
         Relay.sent := Some r |} /\
    r = {| Relay.status := 500;
           Relay.body := error_body "Internal server error" (VStr message) |}.
Proof.
  apply (missing_result_is_answered_500 (Samples.platform Cases.nothing)
           Samples.wav_part ∅ VNull VNull); reflexivity.
Defined.


Lemma answered_unless_nullish_rejection_witness :
  exists r, answer (Samples.platform Cases.timeout) (Some Samples.wav_part) ∅ = Some r.
Proof.
  apply (answered_unless_nullish_rejection (Samples.platform Cases.timeout)
           (Some Samples.wav_part) ∅).
  intros p reason _ Hrej. vm_compute in Hrej. injection Hrej as <-. reflexivity.
Defined.

Lemma other_files_are_untouched_witness :
  Relay.storage (after (Samples.platform Samples.twelve_words) (Some Samples.wav_part)
                   Cases.old_upload) !! "uploads/audio-1-2.mp3" =
    Cases.old_upload !! "uploads/audio-1-2.mp3".
Proof.
  apply (other_files_are_untouched (Samples.platform Samples.twelve_words)
           (Some Samples.wav_part) Cases.old_upload "uploads/audio-1-2.mp3").
  intros p Hp. injection Hp as <-. vm_compute. discriminate.
Defined.

Lemma answer_is_success_or_error_body_witness :
  (400 = 200 /\ get (error_body "No audio file provided" (VStr "Please upload an audio file"))
                  "success" = VBool true) \/
  ((400 = 400 \/ 400 = 500) /\
   exists err msg, error_body "No audio file provided" (VStr "Please upload an audio file")
                   = error_body err msg).
Proof.
  apply (answer_is_success_or_error_body (Samples.platform Samples.twelve_words) None ∅
           {| Relay.status := 400;
              Relay.body := error_body "No audio file provided"
                              (VStr "Please upload an audio file") |}).
  reflexivity.
Defined.

Lemma failed_start_only_reports_witness :
  Client.startRecording Cases.refused fresh =
    (Client.showStatus
       (Client.Cat (Client.Lit "Failed to start recording: ") (Client.Lit "Permission denied"))
       "error" fresh,
     Normal tt).
Proof.
  apply (failed_start_only_reports fresh Cases.refused (Error (VStr "Permission denied"))).
  - left. reflexivity.
  - reflexivity.
Defined.

Lemma rendered_success_replaces_result_witness :
  Client.currentTranscription
    (fst (Client.transcribeAudio_settle (Client.Json (success "hello world" 2))
            (showing (success "old text" 2)))) = success "hello world" 2.
Proof.
  apply (rendered_success_replaces_result (showing (success "old text" 2))
           (success "hello world" 2)); reflexivity.
Defined.

Lemma unrenderable_success_is_reported_witness :
  same_stored_result (showing (success "old text" 2))
    (fst (Client.transcribeAudio_settle (Client.Json Cases.no_duration)
            (showing (success "old text" 2)))).
Proof.
  apply (unrenderable_success_is_reported (showing (success "old text" 2)) Cases.no_duration);
    reflexivity.
Defined.

Lemma stored_result_is_always_downloadable_witness :
  stored_ok (fold_left (fun s o => fst (Client.transcribeAudio_settle o s))
               [Client.Json Cases.no_duration; Client.Json (success "hello world" 2)] fresh) /\
  Client.log
    (fst (Client.downloadTranscription "22/06/2025, 08:15:34" "1719044134324"
            (fold_left (fun s o => fst (Client.transcribeAudio_settle o s))
               [Client.Json Cases.no_duration; Client.Json (success "hello world" 2)] fresh))) =
    [Client.ShowStatus
       (Client.Cat (Client.Lit "Transcription failed: ")
          (Client.Lit "Cannot read properties of undefined (reading 'toFixed')")) "error";
     Client.ShowStatus (Client.Lit "Transcription completed successfully!") "success";
     Client.Download "transcription-1719044134324.txt"
       (Client.Cat (Client.Lit "Speech to Text Transcription
Generated: 22/06/2025, 08:15:34
Model: ")
       (Client.Cat (Client.Lit "nova-2")
       (Client.Cat (Client.Lit "
Confidence: ")
       (Client.Cat (Client.Percent (VNum (Qmake 19 20)))
       (Client.Cat (Client.Lit "
Duration: ")
       (Client.Cat (Client.Fixed1 (VNum (Qmake 3 1)))
       (Client.Cat (Client.Lit "
Word Count: ")
       (Client.Cat (Client.Str (num 2))
       (Client.Cat (Client.Lit "

Transcript:
")
                   (Client.Lit "hello world"))))))))));
     Client.ShowStatus (Client.Lit "Transcription downloaded!") "success"].
Proof.
  destruct (stored_result_is_always_downloadable fresh
              [Client.Json Cases.no_duration; Client.Json (success "hello world" 2)]
              "22/06/2025, 08:15:34" "1719044134324") as [Hok Hdown].
  - left. reflexivity.
  - split; [assumption |]. rewrite Hdown. vm_compute. reflexivity.
Defined.

Lemma copy_writes_the_transcript_witness :
  only_effects (showing (success "hello world" 2))
    (Client.copyTranscription true (showing (success "hello world" 2)))
    [Client.ClipboardWrite (Client.Lit "hello world");
     Client.ShowStatus (Client.Lit "Transcription copied to clipboard!") "success"].
Proof.
  apply (copy_writes_the_transcript (showing (success "hello world" 2)) "hello world" true).
  - reflexivity.
  - reflexivity.
  - discriminate.
Defined.

Lemma relay_success_is_rendered_witness :
  Client.currentTranscription
    (fst (Client.transcribeAudio_settle
            (Client.Json (Relay.success_body (Samples.platform Cases.two_words)
               (VStr "hello world") (VNum (Qmake 19 20)) (num 2) (VNum (Qmake 3 1))
               (VArr [Samples.timed_word "hello"; Samples.timed_word "world"])))
            fresh)) =
    Relay.success_body (Samples.platform Cases.two_words)
      (VStr "hello world") (VNum (Qmake 19 20)) (num 2) (VNum (Qmake 3 1))
      (VArr [Samples.timed_word "hello"; Samples.timed_word "world"]).
Proof.
  apply (relay_success_is_rendered (Samples.platform Cases.two_words) (Some Samples.wav_part) ∅
           {| Relay.status := 200;
              Relay.body := Relay.success_body (Samples.platform Cases.two_words)
                (VStr "hello world") (VNum (Qmake 19 20)) (num 2) (VNum (Qmake 3 1))
                (VArr [Samples.timed_word "hello"; Samples.timed_word "world"]) |}
           (Qmake 3 1) fresh).
  - vm_compute. reflexivity.
  - reflexivity.
  - reflexivity.
Defined.

Lemma relay_error_is_reported_witness :
  Client.log (fst (Client.transcribeAudio_settle
                     (Client.Json (error_body "File too large"
                                     (VStr "Audio file must be smaller than 10MB")))
                     fresh)) =
    [Client.ShowStatus
       (Client.Cat (Client.Lit "Transcription failed: ")
                   (Client.Lit "Audio file must be smaller than 10MB")) "error"].
Proof.
  apply (relay_error_is_reported (Samples.platform Samples.twelve_words)
           (Some Samples.big_part) ∅
           {| Relay.status := 400;
              Relay.body := error_body "File too large"
                              (VStr "Audio file must be smaller than 10MB") |} fresh).
  - vm_compute. reflexivity.
  - simpl. lia.
Defined.
